(** * PocketOptionDashboard: the client-side dashboard controller

    A shallow embedding of [static/js/dashboard.js] (class
    [PocketOptionDashboard]) and the properties of its state
    synchronisation: the signal list, the rolling performance series, the
    distribution counts, the connection and performance snapshots, and the
    notifications raised on errors.

    Conventions of the embedding.
    - JavaScript numbers are binary64 values: [float].
    - A JavaScript string is modelled by the [string] of its UTF-8
      encoding: on well-formed text, one string occurs in another as a
      sequence of UTF-16 code units exactly when its encoding occurs in the
      other's encoding. [toLowerCase] is the engine's function, an operation
      of the class [Engine]; [toLowerCase_ascii] is what it computes on ASCII
      text.
    - The page is a finite map from element ids to elements
      ([document.getElementById] is a lookup), plus the list of
      notification badges appended to the body.
    - A method of the class is a computation in the monad [M]: it reads and
      writes the dashboard object and the page and completes normally or
      abruptly (a thrown exception), exactly like the method it embeds.
    - Payloads are typed as the code reads them; a field the code guards
      against being absent ([x || 0], [x || 'Never']) is an [option], and so
      is [total_profit], whose absence makes [toFixed] throw.
    - What the clock returns ([new Date().toLocaleTimeString()]) is an
      argument [now] of the handler that reads it. *)

From Stdlib Require Import ZArith List Ascii Floats Lia DecimalString.
From Stdlib Require String DecimalPos DecimalN.
From stdpp Require Import gmap strings.

Local Open Scope Z_scope.

(** ** Strings *)

Module JsString.

(** [String.prototype.toLowerCase] on ASCII text. *)
Definition lower_ascii (c : ascii) : ascii :=
  let n := nat_of_ascii c in
  if (Nat.leb 65 n && Nat.leb n 90)%bool then ascii_of_nat (n + 32) else c.

Fixpoint toLowerCase_ascii (s : string) : string :=
  match s with
  | EmptyString => EmptyString
  | String c s' => String (lower_ascii c) (toLowerCase_ascii s')
  end.

(** [startsWith]: [q] is a prefix of [s]. *)
Fixpoint startsWith (s q : string) : bool :=
  match q, s with
  | EmptyString, _ => true
  | String _ _, EmptyString => false
  | String a q', String b s' => (Ascii.eqb a b && startsWith s' q')%bool
  end.

(** [String.prototype.includes]: [q] occurs in [s] at some position. *)
Fixpoint includes (s q : string) : bool :=
  (startsWith s q
   || match s with
      | EmptyString => false
      | String _ s' => includes s' q
      end)%bool.


(** A string is truthy iff it is not empty. *)
Definition truthy (s : string) : bool :=
  match s with EmptyString => false | String _ _ => true end.

End JsString.

(** ** Numbers and their rendering *)

Module JsNumber.

Local Open Scope float_scope.

(** Truthiness of a number: [0], [-0] and [NaN] are falsy. *)
Definition truthy (x : float) : bool :=
  negb (PrimFloat.eqb x 0 || PrimFloat.is_nan x).

(** [x || 0] for an optional number [x] ([undefined] is falsy). *)
Definition or_zero (x : option float) : float :=
  match x with
  | Some v => if truthy v then v else 0
  | None => 0
  end.

(** Text produced by the page: literal characters, the engine's
    [Number::toString] of a number (kept symbolic: the engine computes
    it), and concatenations. *)
Inductive text : Type :=
| Str (s : string)
| Num (x : float)
| Cat (a b : text).

(** String concatenation of two pieces of text. *)
Definition tcat (a b : text) : text :=
  match a, b with
  | Str s, Str t => Str (s +:+ t)
  | _, _ => Cat a b
  end.

(** Decimal digits of a natural number ([0] is ["0"]). *)
Definition digits (n : Z) : string :=
  NilZero.string_of_uint (N.to_uint (Z.to_N n)).

Fixpoint zeros (k : nat) : string :=
  match k with
  | O => EmptyString
  | S k' => String "0" (zeros k')
  end.

(** Step 10 of [Number.prototype.toFixed]: the digits of [n], padded
    with zeros to more than [f] characters, with a point before the last
    [f] of them. *)
Definition fixed_digits (f : nat) (n : Z) : string :=
  let m := digits n in
  let m := zeros (S f - String.length m) +:+ m in
  match f with
  | O => m
  | S _ =>
      let k := String.length m in
      String.substring 0 (k - f) m +:+ "." +:+ String.substring (k - f) f m
  end.

(** [Number.prototype.toFixed(f)] (ECMA-262, 21.1.3.3): a number that
    is not finite, or whose magnitude is at least [10^21], is rendered by
    [Number::toString]; any other is rounded to the integer [n] that
    makes [n / 10^f] closest to it, the larger one on a tie. *)
Definition toFixed (f : nat) (x : float) : text :=
  match Prim2SF x with
  | S754_nan | S754_infinity _ => Num x
  | S754_zero _ => Str (fixed_digits f 0)
  | S754_finite s m e =>
      let num := (if 0 <=? e then Z.pos m * 2 ^ e else Z.pos m)%Z in
      let den := (if 0 <=? e then 1 else 2 ^ (- e))%Z in
      if (10 ^ 21 * den <=? num)%Z then
        if s then Cat (Str "-") (Num (PrimFloat.abs x)) else Num x
      else
        let n := ((2 * num * 10 ^ Z.of_nat f + den) / (2 * den))%Z in
        Str ((if s then "-" else "") +:+ fixed_digits f n)
  end.

End JsNumber.

Import JsString JsNumber.

(** ** The engine *)

(** [String.prototype.toLowerCase] is the engine's Unicode case mapping. The
    dashboard only calls it; what is used of it here is that it maps the
    empty string to the empty string. *)
Class Engine : Type := {
  toLowerCase : string -> string;
  toLowerCase_empty : toLowerCase EmptyString = EmptyString
}.

(** ** Data model *)

(** A signal as delivered by [/api/signals] and by the [new_signal] event:
    the four fields the row template reads, each a string. *)
Record SignalEvent : Type := {
  timestamp : string;
  asset : string;
  direction : string;
  timeframe : string;
  confidence : float
}.

(** [this.connectionStats]. *)
Record ConnectionStats : Type := {
  websocket_connected : bool;
  authenticated : bool;
  last_message : option string;
  message_count : option float
}.

(** [this.performanceData]. *)
Record PerformanceData : Type := {
  total_signals : float;
  winning_signals : float;
  losing_signals : float;
  total_profit : option float;
  active_assets : option float;
  connection_status : option string
}.

(** The two arrays of the line chart that the code writes:
    [performanceChart.data.labels] and
    [performanceChart.data.datasets[0].data]. *)
Record PerfChart : Type := {
  labels : list string;
  data : list (option float)
}.

(** A child node of an element: a row of the signal list, identified with
    the signal [createSignalElement] renders it from (the [new-signal]
    highlight class of a row, which a timer clears, is not tracked), or a
    node that is not an element, such as the white space or a comment the
    markup of the page has between the tags. *)
Inductive Node : Type :=
| RowNode (row : SignalEvent)
| OtherNode.

(** An element of the page, with its child nodes in document order. *)
Record Element : Type := {
  textContent : text;
  className : string;
  childNodes : list Node
}.

(** The rows among some nodes. *)
Fixpoint rows_of (nodes : list Node) : list SignalEvent :=
  match nodes with
  | [] => []
  | RowNode r :: rest => r :: rows_of rest
  | OtherNode :: rest => rows_of rest
  end.

(** [element.children]: the child nodes that are elements. *)
Definition children (e : Element) : list SignalEvent := rows_of (childNodes e).

(** A notification badge appended to the body. *)
Record Notification : Type := {
  n_message : string;
  n_background : string
}.

(** The dashboard object together with the page it renders to. *)
Record Dashboard : Type := {
  signals : list SignalEvent;
  connectionStats : ConnectionStats;
  performanceData : PerformanceData;
  performanceChart : option PerfChart;
  distributionChart : option (list nat);
  document : gmap string Element;
  body : list Notification
}.

Definition with_signals (v : list SignalEvent) (d : Dashboard) : Dashboard :=
  {| signals := v; connectionStats := connectionStats d;
     performanceData := performanceData d;
     performanceChart := performanceChart d;
     distributionChart := distributionChart d;
     document := document d; body := body d |}.

Definition with_connectionStats (v : ConnectionStats) (d : Dashboard) : Dashboard :=
  {| signals := signals d; connectionStats := v;
     performanceData := performanceData d;
     performanceChart := performanceChart d;
     distributionChart := distributionChart d;
     document := document d; body := body d |}.

Definition with_performanceData (v : PerformanceData) (d : Dashboard) : Dashboard :=
  {| signals := signals d; connectionStats := connectionStats d;
     performanceData := v;
     performanceChart := performanceChart d;
     distributionChart := distributionChart d;
     document := document d; body := body d |}.

Definition with_performanceChart (v : option PerfChart) (d : Dashboard) : Dashboard :=
  {| signals := signals d; connectionStats := connectionStats d;
     performanceData := performanceData d;
     performanceChart := v;
     distributionChart := distributionChart d;
     document := document d; body := body d |}.

Definition with_distributionChart (v : option (list nat)) (d : Dashboard) : Dashboard :=
  {| signals := signals d; connectionStats := connectionStats d;
     performanceData := performanceData d;
     performanceChart := performanceChart d;
     distributionChart := v;
     document := document d; body := body d |}.

Definition with_document (v : gmap string Element) (d : Dashboard) : Dashboard :=
  {| signals := signals d; connectionStats := connectionStats d;
     performanceData := performanceData d;
     performanceChart := performanceChart d;
     distributionChart := distributionChart d;
     document := v; body := body d |}.

Definition with_body (v : list Notification) (d : Dashboard) : Dashboard :=
  {| signals := signals d; connectionStats := connectionStats d;
     performanceData := performanceData d;
     performanceChart := performanceChart d;
     distributionChart := distributionChart d;
     document := document d; body := v |}.

Definition with_textContent (t : text) (e : Element) : Element :=
  {| textContent := t; className := className e; childNodes := childNodes e |}.

Definition with_className (c : string) (e : Element) : Element :=
  {| textContent := textContent e; className := c; childNodes := childNodes e |}.

Definition with_childNodes (nodes : list Node) (e : Element) : Element :=
  {| textContent := textContent e; className := className e; childNodes := nodes |}.

(** The element with the rows [l] as its only child nodes. *)
Definition with_children (l : list SignalEvent) (e : Element) : Element :=
  with_childNodes (map RowNode l) e.

(** ** The monad of methods *)

Inductive Exn : Type :=
| TypeError      (* a property read on [undefined] *)
| FetchError.    (* a rejected [fetch] or [json()] promise *)

Inductive Completion (A : Type) : Type :=
| Normal (a : A)
| Throw (e : Exn).
Arguments Normal {A} a.
Arguments Throw {A} e.

Definition M (A : Type) : Type := Dashboard -> Completion A * Dashboard.

#[global] Instance M_ret : MRet M := fun A a st => (Normal a, st).

#[global] Instance M_bind : MBind M := fun A B k m st =>
  match m st with
  | (Normal a, st') => k a st'
  | (Throw e, st') => (Throw e, st')
  end.

Definition throw {A : Type} (e : Exn) : M A := fun st => (Throw e, st).

Definition gets {A : Type} (f : Dashboard -> A) : M A := fun st => (Normal (f st), st).

Definition modify (f : Dashboard -> Dashboard) : M unit := fun st => (Normal tt, f st).

(** [try { m } catch (error) { h error }]. *)
Definition try_catch (m : M unit) (h : Exn -> M unit) : M unit := fun st =>
  match m st with
  | (Normal a, st') => (Normal a, st')
  | (Throw e, st') => h e st'
  end.

(** The state a computation leaves, and how it completes. *)
Definition exec {A : Type} (m : M A) (st : Dashboard) : Dashboard := snd (m st).
Definition completion {A : Type} (m : M A) (st : Dashboard) : Completion A := fst (m st).

(** [await (await fetch(url)).json()]: a response, or a rejection. *)
Definition await_json {A : Type} (response : option A) : M A :=
  match response with
  | Some v => mret v
  | None => throw FetchError
  end.

(** ** The page *)

Definition getElementById (id : string) : M (option Element) :=
  gets (fun st => document st !! id).

(** [const el = document.getElementById(id); if (el) el.textContent = t;] *)
Definition setText (id : string) (t : text) : M unit :=
  el ← getElementById id;
  match el with
  | Some e => modify (fun st => with_document (<[id := with_textContent t e]> (document st)) st)
  | None => mret tt
  end.

(** [if (el) el.className = c;] *)
Definition setClass (id : string) (c : string) : M unit :=
  el ← getElementById id;
  match el with
  | Some e => modify (fun st => with_document (<[id := with_className c e]> (document st)) st)
  | None => mret tt
  end.

(** ** The class [PocketOptionDashboard] *)

(** The object the constructor builds before it calls [init]. *)
Definition constructor (page : gmap string Element) : Dashboard :=
  {| signals := [];
     connectionStats :=
       {| websocket_connected := false; authenticated := false;
          last_message := None; message_count := Some 0%float |};
     performanceData :=
       {| total_signals := 0; winning_signals := 0; losing_signals := 0;
          total_profit := Some 0%float; active_assets := Some 0%float;
          connection_status := Some "disconnected" |};
     performanceChart := None;
     distributionChart := None;
     document := page;
     body := [] |}.

(** [initializeCharts]: a chart is created for each canvas the page has. *)
Definition initializeCharts : M unit :=
  performanceCtx ← getElementById "performance-chart";
  match performanceCtx with
  | Some _ => modify (with_performanceChart (Some {| labels := []; data := [] |}))
  | None => mret tt
  end;;
  distributionCtx ← getElementById "distribution-chart";
  match distributionCtx with
  | Some _ => modify (with_distributionChart (Some [0; 0; 0]%nat))
  | None => mret tt
  end.

(** [updateConnectionStatus]. *)
Definition updateConnectionStatus : M unit :=
  stats ← gets connectionStats;
  setText "connection-status"
    (Str (if websocket_connected stats then "✅ Connected" else "❌ Disconnected"));;
  setClass "connection-status"
    (if websocket_connected stats then "connected" else "disconnected");;
  setText "authentication-status"
    (Str (if authenticated stats then "✅ Authenticated" else "❌ Not Authenticated"));;
  setClass "authentication-status"
    (if authenticated stats then "authenticated" else "not-authenticated");;
  setText "message-count" (Num (or_zero (message_count stats)));;
  setText "last-activity"
    (Str (match last_message stats with
          | Some s => if JsString.truthy s then s else "Never"
          | None => "Never"
          end)).

(** The win rate as [updatePerformanceStats] computes it: the string
    [((winning_signals / total_signals) * 100).toFixed(1)] when
    [total_signals > 0], and the number [0] (whose text is ["0"])
    otherwise. *)
Definition winRate (p : PerformanceData) : text :=
  if PrimFloat.ltb 0 (total_signals p)
  then toFixed 1 (winning_signals p / total_signals p * 100)%float
  else Str "0".

(** [updatePerformanceStats]. [total_profit.toFixed(2)] throws a
    [TypeError] when the field is absent and the element exists. *)
Definition updatePerformanceStats : M unit :=
  p ← gets performanceData;
  setText "total-signals" (Num (total_signals p));;
  setText "winning-signals" (Num (winning_signals p));;
  setText "losing-signals" (Num (losing_signals p));;
  totalProfitEl ← getElementById "total-profit";
  match totalProfitEl with
  | Some _ =>
      match total_profit p with
      | Some v => setText "total-profit" (tcat (Str "$") (toFixed 2 v))
      | None => throw TypeError
      end
  | None => mret tt
  end;;
  setText "active-assets" (Num (or_zero (active_assets p)));;
  setText "win-rate" (tcat (winRate p) (Str "%")).

(** The rolling series of [updateCharts]: both arrays get one more entry,
    and when the labels are more than 20 both lose their first entry. *)
Definition push_point (label : string) (value : option float) (c : PerfChart) : PerfChart :=
  let c1 := {| labels := labels c ++ [label]; data := data c ++ [value] |} in
  if (20 <? length (labels c1))%nat
  then {| labels := tail (labels c1); data := tail (data c1) |}
  else c1.

(** [this.signals.filter(s => s.direction === d).length]. *)
Definition countDirection (d : string) (l : list SignalEvent) : nat :=
  length (List.filter (fun s => String.eqb (direction s) d) l).

(** The array [updateCharts] hands to the distribution chart. *)
Definition distribution (l : list SignalEvent) : list nat :=
  [countDirection "CALL" l; countDirection "PUT" l; countDirection "HOLD" l].

(** [updateCharts]. *)
Definition updateCharts (now : string) : M unit :=
  chart ← gets performanceChart;
  match chart with
  | Some c =>
      p ← gets performanceData;
      modify (with_performanceChart (Some (push_point now (total_profit p) c)))
  | None => mret tt
  end;;
  dist ← gets distributionChart;
  match dist with
  | Some _ =>
      l ← gets signals;
      modify (with_distributionChart (Some (distribution l)))
  | None => mret tt
  end.

(** [updateLastUpdateTime]. *)
Definition updateLastUpdateTime (now : string) : M unit :=
  setText "last-update" (Str now).

(** [createSignalElement]: the row of a signal. *)
Definition createSignalElement (signal : SignalEvent) : SignalEvent := signal.

(** [addSignalToUI]: the row goes in front of the first child node
    ([insertBefore(signalElement, firstChild)]); when the container then has
    more than 20 element children ([children.length > 20]) its last child
    node, whatever it is, is removed ([removeChild(lastChild)]). *)
Definition addSignalToUI (signal : SignalEvent) (now : string) : M unit :=
  signalsContainer ← getElementById "signals-container";
  match signalsContainer with
  | None => mret tt
  | Some c =>
      let nodes := RowNode (createSignalElement signal) :: childNodes c in
      let nodes :=
        if (20 <? length (rows_of nodes))%nat then removelast nodes else nodes in
      modify (fun st =>
        with_document (<["signals-container" := with_childNodes nodes c]> (document st)) st);;
      updateLastUpdateTime now
  end.

(** [displaySignals]: the container is emptied of all its child nodes
    ([innerHTML = '']) and gets one row per signal, in order. *)
Definition displaySignals (l : list SignalEvent) : M unit :=
  container ← getElementById "signals-container";
  match container with
  | None => mret tt
  | Some c =>
      modify (fun st =>
        with_document
          (<["signals-container" := with_children (map createSignalElement l) c]> (document st)) st)
  end.

(** The list [filterSignals] computes and displays. *)
Definition filtered_by_asset (a : string) (l : list SignalEvent) : list SignalEvent :=
  if String.eqb a "all" then l
  else List.filter (fun s => String.eqb (asset s) a) l.

Definition filterSignals (a : string) : M unit :=
  l ← gets signals;
  displaySignals (filtered_by_asset a l).

Section Dashboard.
Context `{engine : Engine}.

(** The predicate of [searchSignals]. *)
Definition search_match (query : string) (s : SignalEvent) : bool :=
  (includes (toLowerCase (asset s)) (toLowerCase query)
   || includes (toLowerCase (direction s)) (toLowerCase query)
   || includes (timeframe s) query)%bool.

Definition searchSignals (query : string) : M unit :=
  l ← gets signals;
  displaySignals (List.filter (search_match query) l).

(** [showNotification(message, type = 'success')]: a badge is appended to
    the body. The timer that removes it three seconds later is not
    modelled: [body] lists the badges raised so far. *)
Definition showNotification (message type : string) : M unit :=
  modify (fun st =>
    with_body
      (body st ++ [{| n_message := message;
                      n_background := if String.eqb type "error" then "#e74c3c" else "#27ae60" |}])
      st).

(** A badge raised with severity [error]. *)
Definition is_error (n : Notification) : bool := String.eqb (n_background n) "#e74c3c".

(** [loadInitialData]: the three snapshots are requested and applied one
    after the other inside one [try]; any exception ends the block and
    raises the error badge. The three responses are the arguments (a
    rejected request is [None]). The method is taken as one step: what the
    event loop may deliver between two of its [await]s is not interleaved
    with it. *)
Definition loadInitialData
    (signalsResponse : option (list SignalEvent))
    (performanceResponse : option PerformanceData)
    (connectionResponse : option ConnectionStats)
    (now : string) : M unit :=
  try_catch
    (l ← await_json signalsResponse;
     modify (with_signals l);;
     l ← gets signals;
     displaySignals l;;
     p ← await_json performanceResponse;
     modify (with_performanceData p);;
     updatePerformanceStats;;
     c ← await_json connectionResponse;
     modify (with_connectionStats c);;
     updateConnectionStatus;;
     updateCharts now)
    (fun error => showNotification "Error loading data" "error").

(** ** Event handlers *)

(** [socket.on('connection_update', ...)]. *)
Definition on_connection_update (stats : ConnectionStats) : M unit :=
  modify (with_connectionStats stats);;
  updateConnectionStatus.

(** [socket.on('performance_update', ...)]. *)
Definition on_performance_update (d : PerformanceData) (now : string) : M unit :=
  modify (with_performanceData d);;
  updatePerformanceStats;;
  updateCharts now.

(** [socket.on('new_signal', ...)]. *)
Definition on_new_signal (signal : SignalEvent) (now : string) : M unit :=
  addSignalToUI signal now;;
  showNotification ("New " +:+ direction signal +:+ " signal for " +:+ asset signal) "success".

(** [socket.on('disconnect', ...)]. *)
Definition on_disconnect : M unit := updateConnectionStatus.

(** Everything the event loop can deliver to the dashboard. *)
Inductive Event : Type :=
| ConnectionUpdate (stats : ConnectionStats)
| PerformanceUpdate (d : PerformanceData) (now : string)
| NewSignal (signal : SignalEvent) (now : string)
| Connect
| Disconnect
| Pull (signalsResponse : option (list SignalEvent))
       (performanceResponse : option PerformanceData)
       (connectionResponse : option ConnectionStats)
       (now : string)                 (* startup, or a click on the refresh button *)
| FilterChange (a : string)
| SearchInput (query : string)
| ClockTick (now : string).           (* the one-minute interval timer *)

Definition dispatch (e : Event) : M unit :=
  match e with
  | ConnectionUpdate stats => on_connection_update stats
  | PerformanceUpdate d now => on_performance_update d now
  | NewSignal signal now => on_new_signal signal now
  | Connect => mret tt                (* [socket.emit('get_initial_data')] *)
  | Disconnect => on_disconnect
  | Pull rs rp rc now => loadInitialData rs rp rc now
  | FilterChange a => filterSignals a
  | SearchInput query => searchSignals query
  | ClockTick now => updateLastUpdateTime now
  end.

(** The dashboard after a sequence of events, each handled to completion
    (an exception that escapes a handler ends that handler only). *)
Definition run (es : list Event) (st : Dashboard) : Dashboard :=
  fold_left (fun s e => exec (dispatch e) s) es st.

(** The dashboard when the page has loaded: the constructor's object with
    its charts initialised. *)
Definition startup (page : gmap string Element) : Dashboard :=
  exec initializeCharts (constructor page).

(** ** Notions used to state the properties *)

(** The last [k] entries of a list, in order. *)
Definition lastn {A : Type} (k : nat) (l : list A) : list A := skipn (length l - k) l.

(** Head insertion with a capacity: [x] in front, and the last entry
    dropped when that makes more than [cap] entries. *)
Definition cons_capped {A : Type} (cap : nat) (x : A) (l : list A) : list A :=
  let l' := x :: l in
  if (cap <? length l')%nat then removelast l' else l'.

(** Tail insertion with a capacity: [x] at the end, and the first entry
    dropped when that makes more than [cap] entries. *)
Definition snoc_capped {A : Type} (cap : nat) (x : A) (l : list A) : list A :=
  let l' := l ++ [x] in
  if (cap <? length l')%nat then tail l' else l'.

(** The rows the signal list shows (none when the page has no list). *)
Definition rows (st : Dashboard) : list SignalEvent :=
  match document st !! "signals-container" with
  | Some c => children c
  | None => []
  end.

(** The text an element shows, if the page has the element. *)
Definition text_of (id : string) (st : Dashboard) : option text :=
  textContent <$> document st !! id.

(** The series of the line chart as a list of points, oldest first. *)
Definition snapshot (c : PerfChart) : list (string * option float) :=
  combine (labels c) (data c).

(** The chart that has received no point yet. *)
Definition empty_chart : PerfChart := {| labels := []; data := [] |}.

(** What [updateConnectionStatus] writes on the page for given statistics. *)
Definition render_connection (stats : ConnectionStats) (page : gmap string Element)
    : gmap string Element :=
  alter (with_textContent
           (Str (match last_message stats with
                 | Some s => if JsString.truthy s then s else "Never"
                 | None => "Never"
                 end))) "last-activity"
    (alter (with_textContent (Num (or_zero (message_count stats)))) "message-count"
       (alter (with_className
                 (if authenticated stats then "authenticated" else "not-authenticated"))
          "authentication-status"
          (alter (with_textContent
                    (Str (if authenticated stats
                          then "✅ Authenticated" else "❌ Not Authenticated")))
             "authentication-status"
             (alter (with_className
                       (if websocket_connected stats then "connected" else "disconnected"))
                "connection-status"
                (alter (with_textContent
                          (Str (if websocket_connected stats
                                then "✅ Connected" else "❌ Disconnected")))
                   "connection-status" page))))).

(** What [updatePerformanceStats] writes before it reads [total_profit]. *)
Definition render_counts (p : PerformanceData) (page : gmap string Element)
    : gmap string Element :=
  alter (with_textContent (Num (losing_signals p))) "losing-signals"
    (alter (with_textContent (Num (winning_signals p))) "winning-signals"
       (alter (with_textContent (Num (total_signals p))) "total-signals" page)).

(** What [updatePerformanceStats] writes after the total profit. *)
Definition render_rates (p : PerformanceData) (page : gmap string Element)
    : gmap string Element :=
  alter (with_textContent (tcat (winRate p) (Str "%"))) "win-rate"
    (alter (with_textContent (Num (or_zero (active_assets p)))) "active-assets" page).

(** The child nodes [addSignalToUI] leaves in the container. *)
Definition add_row (signal : SignalEvent) (c : Element) : Element :=
  let nodes := RowNode (createSignalElement signal) :: childNodes c in
  with_childNodes
    (if (20 <? length (rows_of nodes))%nat then removelast nodes else nodes) c.

(** The child nodes of the element are all rows. *)
Definition only_rows (c : Element) : Prop := childNodes c = map RowNode (children c).

(** The series after the points [pts] have been pushed, in order. *)
Definition push_all (pts : list (string * option float)) (c : PerfChart) : PerfChart :=
  fold_left (fun c p => push_point (fst p) (snd p) c) pts c.

(** The [new_signal] events that deliver the signals [l], in order, each
    with the clock reading of its arrival. *)
Definition new_signals (l : list (SignalEvent * string)) : list Event :=
  map (fun e => NewSignal (fst e) (snd e)) l.


(** What the page shows about the connection: status and its class,
    authentication and its class, message count, last activity. *)
Definition connection_view (st : Dashboard)
    : option (text * string) * option (text * string) * option text * option text :=
  ((fun e => (textContent e, className e)) <$> document st !! "connection-status",
   (fun e => (textContent e, className e)) <$> document st !! "authentication-status",
   text_of "message-count" st,
   text_of "last-activity" st).

(** The badge [loadInitialData] raises when it catches an exception. *)
Definition error_badge : Notification :=
  {| n_message := "Error loading data"; n_background := "#e74c3c" |}.

(** Whether [updatePerformanceStats] can render the total profit of [p]:
    it cannot when the page has the element and the field is absent. *)
Definition profit_renders (p : PerformanceData) (st : Dashboard) : bool :=
  match document st !! "total-profit", total_profit p with
  | Some _, None => false
  | _, _ => true
  end.

(** The point an event calls [updateCharts] with, if it gets to call it: a
    [performance_update] that renders, and a pull whose three requests
    succeed and whose performance snapshot renders. [updateCharts] appends
    the point to the series of the performance chart when the dashboard has
    one. *)
Definition appended_point (e : Event) (st : Dashboard) : option (string * option float) :=
  match e with
  | PerformanceUpdate d now =>
      if profit_renders d st then Some (now, total_profit d) else None
  | Pull (Some _) (Some p) (Some _) now =>
      if profit_renders p st then Some (now, total_profit p) else None
  | _ => None
  end.

(** A direction the distribution chart has a slice for. *)
Definition known_direction (s : SignalEvent) : bool :=
  String.eqb (direction s) "CALL" || String.eqb (direction s) "PUT"
  || String.eqb (direction s) "HOLD".

(** A page with every element the dashboard looks up, all blank. *)
Definition blank : Element := {| textContent := Str ""; className := ""; childNodes := [] |}.

(** The ASCII case mapping as an engine: what the engine computes on the
    ASCII text of the sample payloads. *)
Definition ascii_engine : Engine :=
  {| toLowerCase := toLowerCase_ascii; toLowerCase_empty := eq_refl |}.

Definition full_page : gmap string Element :=
  list_to_map
    (map (fun id => (id, blank))
       ["signals-container"; "performance-chart"; "distribution-chart";
        "connection-status"; "authentication-status"; "message-count";
        "last-activity"; "total-signals"; "winning-signals"; "losing-signals";
        "total-profit"; "win-rate"; "active-assets"; "last-update";
        "refresh-btn"; "filter-asset"; "search-signals"]).

(** The same page with the signal list as an indented template leaves it:
    no row yet, and one white-space text node between the tags. *)
Definition white_space_page : gmap string Element :=
  <["signals-container" := with_childNodes [OtherNode] blank]> full_page.

(** Sample payloads. *)
Definition eurusd_call : SignalEvent :=
  {| timestamp := "2024-01-01T12:00:00"; asset := "EURUSD"; direction := "CALL";
     timeframe := "1m"; confidence := 87 |}.

Definition gbpusd_put : SignalEvent :=
  {| timestamp := "2024-01-01T12:01:00"; asset := "GBPUSD"; direction := "PUT";
     timeframe := "5m"; confidence := 64 |}.

Definition six_of_ten : PerformanceData :=
  {| total_signals := 10; winning_signals := 6; losing_signals := 4;
     total_profit := Some 12.5%float; active_assets := Some 3%float;
     connection_status := Some "connected" |}.


Definition online : ConnectionStats :=
  {| websocket_connected := true; authenticated := true;
     last_message := Some "12:00:00"; message_count := Some 5%float |}.

(** The last lines of the script: when the page has loaded, a dashboard is
    constructed only if the page has the signal list. *)
Definition boot (page : gmap string Element) : option Dashboard :=
  match page !! "signals-container" with
  | Some _ => Some (startup page)
  | None => None
  end.

(** The [performance_update] events that deliver the snapshots [us], in
    order, each with the clock reading of its arrival. *)
Definition performance_updates (us : list (PerformanceData * string)) : list Event :=
  map (fun u => PerformanceUpdate (fst u) (snd u)) us.

(** The badge [new_signal] raises for a signal. *)
Definition signal_badge (signal : SignalEvent) : Notification :=
  {| n_message := "New " +:+ direction signal +:+ " signal for " +:+ asset signal;
     n_background := "#27ae60" |}.

(** Whether an event gets to call [updateCharts]: a [performance_update]
    that renders, and a pull whose three requests succeed and whose
    performance snapshot renders. *)
Definition redraws (e : Event) (st : Dashboard) : bool :=
  match e with
  | PerformanceUpdate d _ => profit_renders d st
  | Pull (Some _) (Some p) (Some _) _ => profit_renders p st
  | _ => false
  end.

(** The series is well formed: as many labels as values, at most 20. *)
Definition series_ok (c : option PerfChart) : Prop :=
  match c with
  | Some c => length (labels c) = length (data c) /\ (length (labels c) <= 20)%nat
  | None => True
  end.

(** * Properties *)

(** ** Bounded lists *)

Section BoundedLists.
Context {A : Type}.
Implicit Types (l : list A) (x : A).

Lemma cons_capped_firstn cap x l :
  (length l <= cap)%nat -> cons_capped cap x l = firstn cap (x :: l).
Proof.
  intros Hlen. unfold cons_capped.
  destruct (Nat.ltb_spec cap (length (x :: l))) as [Hgt | Hle].
  - rewrite removelast_firstn_len. f_equal. simpl in *. lia.
  - symmetry. apply firstn_all2. exact Hle.
Qed.

Lemma firstn_cons_firstn cap x l :
  firstn cap (x :: firstn cap l) = firstn cap (x :: l).
Proof.
  destruct cap as [| k]; [reflexivity |].
  rewrite !firstn_cons, firstn_firstn. do 2 f_equal. lia.
Qed.

Lemma lastn_length k l : length (lastn k l) = Nat.min (length l) k.
Proof. unfold lastn. rewrite length_skipn. lia. Qed.

Lemma tail_skipn k l : tail (skipn k l) = skipn (S k) l.
Proof. change (tail (skipn k l)) with (skipn 1 (skipn k l)). apply skipn_skipn. Qed.

Lemma snoc_capped_lastn cap x l :
  (0 < cap)%nat -> snoc_capped cap x (lastn cap l) = lastn cap (l ++ [x]).
Proof.
  intros Hpos. unfold snoc_capped, lastn.
  rewrite !length_app, length_skipn. simpl length.
  destruct (Nat.ltb_spec cap (length l - (length l - cap) + 1)) as [Hgt | Hle].
  - assert (Hcap : (cap <= length l)%nat) by lia.
    replace (length l + 1 - cap)%nat with (S (length l - cap)) by lia.
    rewrite (skipn_app (S (length l - cap))).
    replace (S (length l - cap) - length l)%nat with 0%nat by lia.
    rewrite <- tail_skipn. simpl (skipn 0 _).
    destruct (skipn (length l - cap) l) eqn:E; [| reflexivity].
    apply (f_equal (@length A)) in E. rewrite length_skipn in E. simpl in E. lia.
  - replace (length l - cap)%nat with 0%nat by lia.
    replace (length l + 1 - cap)%nat with 0%nat by lia. reflexivity.
Qed.

End BoundedLists.

(** ** Running methods *)

Lemma bind_run {A B : Type} (m : M A) (k : A -> M B) (st : Dashboard) :
  (m ≫= k) st =
  match m st with
  | (Normal a, st') => k a st'
  | (Throw e, st') => (Throw e, st')
  end.
Proof. reflexivity. Qed.

Lemma ret_run {A : Type} (a : A) (st : Dashboard) :
  (mret a : M A) st = (Normal a, st).
Proof. reflexivity. Qed.

Lemma with_document_same (st : Dashboard) : with_document (document st) st = st.
Proof. destruct st; reflexivity. Qed.

Lemma with_document_twice (d1 d2 : gmap string Element) (st : Dashboard) :
  with_document d2 (with_document d1 st) = with_document d2 st.
Proof. reflexivity. Qed.

Lemma insert_as_alter (f : Element -> Element) (id : string) (m : gmap string Element) :
  match m !! id with
  | Some e => <[id := f e]> m
  | None => m
  end = alter f id m.
Proof.
  apply map_eq; intros j. rewrite lookup_alter.
  destruct (m !! id) eqn:E.
  - rewrite lookup_insert. case_decide; subst; rewrite ?E; reflexivity.
  - case_decide; subst; rewrite ?E; reflexivity.
Qed.

Lemma setText_run (id : string) (t : text) (st : Dashboard) :
  setText id t st =
  (Normal tt, with_document (alter (with_textContent t) id (document st)) st).
Proof.
  rewrite <- insert_as_alter. unfold setText, getElementById, gets, modify.
  rewrite bind_run. destruct (document st !! id); [reflexivity |].
  rewrite with_document_same. reflexivity.
Qed.

Lemma setClass_run (id c : string) (st : Dashboard) :
  setClass id c st =
  (Normal tt, with_document (alter (with_className c) id (document st)) st).
Proof.
  rewrite <- insert_as_alter. unfold setClass, getElementById, gets, modify.
  rewrite bind_run. destruct (document st !! id); [reflexivity |].
  rewrite with_document_same. reflexivity.
Qed.

Ltac run_step :=
  rewrite ?bind_run, ?ret_run, ?setText_run, ?setClass_run, ?with_document_twice;
  cbv beta iota;
  cbn [document with_document signals connectionStats performanceData
       performanceChart distributionChart body with_signals
       with_connectionStats with_performanceData with_performanceChart
       with_distributionChart with_body].

Ltac mrun := repeat first [rewrite bind_run | rewrite ret_run | progress cbv beta iota].

Lemma updateConnectionStatus_run (st : Dashboard) :
  updateConnectionStatus st =
  (Normal tt, with_document (render_connection (connectionStats st) (document st)) st).
Proof.
  unfold updateConnectionStatus, render_connection, gets.
  repeat run_step. reflexivity.
Qed.

Lemma with_performanceChart_same (st : Dashboard) :
  with_performanceChart (performanceChart st) st = st.
Proof. destruct st; reflexivity. Qed.

Lemma with_distributionChart_same (st : Dashboard) :
  with_distributionChart (distributionChart st) st = st.
Proof. destruct st; reflexivity. Qed.

Lemma displaySignals_run (l : list SignalEvent) (st : Dashboard) :
  displaySignals l st =
  (Normal tt,
   with_document
     (alter (with_children (map createSignalElement l)) "signals-container" (document st)) st).
Proof.
  rewrite <- insert_as_alter. unfold displaySignals, getElementById, gets, modify.
  rewrite bind_run. destruct (document st !! "signals-container"); [reflexivity |].
  rewrite with_document_same. reflexivity.
Qed.

Lemma addSignalToUI_run (signal : SignalEvent) (now : string) (st : Dashboard) :
  addSignalToUI signal now st =
  (Normal tt,
   match document st !! "signals-container" with
   | Some _ =>
       with_document
         (alter (with_textContent (Str now)) "last-update"
            (alter (add_row signal) "signals-container" (document st))) st
   | None => st
   end).
Proof.
  unfold addSignalToUI, updateLastUpdateTime, getElementById, gets, modify.
  rewrite bind_run. rewrite <- (insert_as_alter (add_row signal)).
  destruct (document st !! "signals-container") as [c |]; [| reflexivity].
  repeat run_step. reflexivity.
Qed.

Lemma updateCharts_run (now : string) (st : Dashboard) :
  updateCharts now st =
  (Normal tt,
   with_distributionChart
     (option_map (fun _ => distribution (signals st)) (distributionChart st))
     (with_performanceChart
        (option_map (push_point now (total_profit (performanceData st)))
           (performanceChart st)) st)).
Proof.
  unfold updateCharts, gets, modify. rewrite !bind_run.
  destruct st as [sg cs pd pc dc doc bd]; destruct pc, dc; reflexivity.
Qed.

Lemma exec_updateCharts (now : string) (st : Dashboard) :
  exec (updateCharts now) st =
  with_distributionChart
    (option_map (fun _ => distribution (signals st)) (distributionChart st))
    (with_performanceChart
       (option_map (push_point now (total_profit (performanceData st)))
          (performanceChart st)) st).
Proof. unfold exec. rewrite updateCharts_run. reflexivity. Qed.

Lemma updatePerformanceStats_run (st : Dashboard) :
  updatePerformanceStats st =
  let p := performanceData st in
  match document st !! "total-profit", total_profit p with
  | Some _, None =>
      (Throw TypeError, with_document (render_counts p (document st)) st)
  | Some _, Some v =>
      (Normal tt,
       with_document
         (render_rates p
            (alter (with_textContent (tcat (Str "$") (toFixed 2 v))) "total-profit"
               (render_counts p (document st)))) st)
  | None, _ =>
      (Normal tt, with_document (render_rates p (render_counts p (document st))) st)
  end.
Proof.
  unfold updatePerformanceStats, render_rates, render_counts, getElementById, gets, throw.
  repeat run_step.
  rewrite !lookup_alter_ne by discriminate.
  destruct (document st !! "total-profit") as [e |].
  - destruct (total_profit (performanceData st)) as [v |].
    + repeat run_step. reflexivity.
    + reflexivity.
  - repeat run_step. reflexivity.
Qed.

(** ** The rolling series of the performance chart *)

Lemma lastn_map {A B : Type} (f : A -> B) (k : nat) (l : list A) :
  lastn k (map f l) = map f (lastn k l).
Proof. unfold lastn. rewrite length_map. apply skipn_map. Qed.

Lemma combine_fst_snd {A B : Type} (l : list (A * B)) :
  combine (map fst l) (map snd l) = l.
Proof. induction l as [| [a b] l IH]; simpl; [reflexivity | rewrite IH; reflexivity]. Qed.

Lemma push_point_snoc (label : string) (value : option float) (c : PerfChart) :
  length (labels c) = length (data c) ->
  push_point label value c =
  {| labels := snoc_capped 20 label (labels c);
     data := snoc_capped 20 value (data c) |}.
Proof.
  intros Hlen. unfold push_point, snoc_capped. cbn [labels data].
  rewrite !length_app, Hlen. simpl length.
  destruct (20 <? length (data c) + 1)%nat; reflexivity.
Qed.

Lemma push_all_lastn (pts : list (string * option float)) :
  labels (push_all pts empty_chart) = lastn 20 (map fst pts) /\
  data (push_all pts empty_chart) = lastn 20 (map snd pts).
Proof.
  induction pts as [| p pts [IHl IHd]] using rev_ind; [split; reflexivity |].
  unfold push_all in *. rewrite fold_left_app. cbn [fold_left].
  rewrite push_point_snoc.
  - cbn [labels data]. rewrite IHl, IHd, !map_app. cbn [map].
    rewrite !snoc_capped_lastn by lia. split; reflexivity.
  - rewrite IHl, IHd, !lastn_length, !length_map. reflexivity.
Qed.

(** C5. Starting from the empty series, after the points [pts] have been
    pushed the series holds exactly the last [min (length pts) 20] of them in
    push order, oldest first; each push puts the point at the end and drops
    the oldest point when that makes more than 20; and [updateCharts] pushes
    the point [(now, total_profit)] on the chart, if there is one. Reading the
    series ([snapshot]) is a projection of the chart and changes nothing. *)
Theorem rolling_window_last_20 (pts : list (string * option float)) :
  let c := push_all pts empty_chart in
  snapshot c = lastn 20 pts /\
  length (snapshot c) = Nat.min (length pts) 20 /\
  (forall p, snapshot (push_all (pts ++ [p]) empty_chart) = snoc_capped 20 p (snapshot c)) /\
  (forall now st,
     performanceChart (exec (updateCharts now) st) =
     push_point now (total_profit (performanceData st)) <$> performanceChart st).
Proof.
  assert (Hsnap : forall l, snapshot (push_all l empty_chart) = lastn 20 l).
  { intros l. unfold snapshot. destruct (push_all_lastn l) as [-> ->].
    rewrite !lastn_map. apply combine_fst_snd. }
  cbv zeta. repeat split.
  - apply Hsnap.
  - rewrite Hsnap. apply lastn_length.
  - intros p. rewrite !Hsnap. symmetry. apply snoc_capped_lastn. lia.
  - intros now st. unfold exec. rewrite updateCharts_run. cbn [snd].
    destruct (performanceChart st); reflexivity.
Qed.

(** ** The signal list *)

Lemma firstn_app_firstn {A : Type} (n : nat) (a b : list A) :
  firstn n (a ++ firstn n b) = firstn n (a ++ b).
Proof.
  rewrite !firstn_app, firstn_firstn. do 2 f_equal. lia.
Qed.

Lemma rows_of_map_RowNode (l : list SignalEvent) : rows_of (map RowNode l) = l.
Proof. induction l as [| r l IH]; simpl; [reflexivity | rewrite IH; reflexivity]. Qed.

Lemma children_with_children (l : list SignalEvent) (c : Element) :
  children (with_children l c) = l.
Proof. apply rows_of_map_RowNode. Qed.

Lemma removelast_map {A B : Type} (f : A -> B) (l : list A) :
  removelast (map f l) = map f (removelast l).
Proof.
  induction l as [| x l IH]; [reflexivity |].
  destruct l as [| y l]; [reflexivity |].
  change (f x :: removelast (map f (y :: l)) = f x :: map f (removelast (y :: l))).
  rewrite IH. reflexivity.
Qed.

Lemma capped_nodes (signal : SignalEvent) (l : list SignalEvent) :
  (if (20 <? length (rows_of (RowNode signal :: map RowNode l)))%nat
   then removelast (RowNode signal :: map RowNode l)
   else RowNode signal :: map RowNode l) =
  map RowNode (cons_capped 20 signal l).
Proof.
  cbn [rows_of]. rewrite rows_of_map_RowNode. unfold cons_capped. cbv zeta.
  destruct (20 <? length (signal :: l))%nat; [| reflexivity].
  rewrite <- removelast_map. reflexivity.
Qed.

(** On a container whose child nodes are all rows, [addSignalToUI] is the
    capped head insertion, and the child nodes are all rows again. *)
Lemma add_row_only_rows (signal : SignalEvent) (c : Element) :
  only_rows c ->
  only_rows (add_row signal c) /\
  children (add_row signal c) = cons_capped 20 signal (children c).
Proof.
  unfold only_rows, add_row, children, createSignalElement.
  set (l := rows_of (childNodes c)). intros Hc. cbv zeta.
  cbn [childNodes with_childNodes]. rewrite Hc, capped_nodes, rows_of_map_RowNode.
  split; reflexivity.
Qed.

Lemma rows_addSignalToUI
    (signal : SignalEvent) (now : string) (st : Dashboard) (c : Element) :
  document st !! "signals-container" = Some c ->
  document (exec (addSignalToUI signal now) st) !! "signals-container" =
    Some (add_row signal c) /\
  rows (exec (addSignalToUI signal now) st) = children (add_row signal c).
Proof.
  intros E. unfold exec. rewrite addSignalToUI_run, E. cbn [snd]. unfold rows.
  cbn [document with_document].
  rewrite lookup_alter_ne by discriminate. rewrite lookup_alter_eq, E.
  split; reflexivity.
Qed.

Lemma on_new_signal_run (signal : SignalEvent) (now : string) (st : Dashboard) :
  on_new_signal signal now st =
  (Normal tt,
   exec (showNotification
           ("New " +:+ direction signal +:+ " signal for " +:+ asset signal) "success")
     (exec (addSignalToUI signal now) st)).
Proof.
  unfold on_new_signal, exec. rewrite bind_run, addSignalToUI_run. reflexivity.
Qed.

Lemma rows_on_new_signal (signal : SignalEvent) (now : string) (st : Dashboard) :
  rows (exec (on_new_signal signal now) st) = rows (exec (addSignalToUI signal now) st).
Proof. unfold exec at 1. rewrite on_new_signal_run. reflexivity. Qed.

Lemma container_kept_by_new_signal (signal : SignalEvent) (now : string) (st : Dashboard) :
  is_Some (document st !! "signals-container") ->
  is_Some (document (exec (on_new_signal signal now) st) !! "signals-container").
Proof.
  intros [c E]. unfold exec at 1. rewrite on_new_signal_run. cbn [snd].
  unfold exec, showNotification, modify. cbn [snd document with_body].
  rewrite addSignalToUI_run, E. cbn [snd document with_document].
  rewrite lookup_alter_ne by discriminate. rewrite lookup_alter_eq, E. eexists; reflexivity.
Qed.

(** The page has the signal list, and its child nodes are all rows. *)
Lemma tidy_on_new_signal (signal : SignalEvent) (now : string) (st : Dashboard) (c : Element) :
  document st !! "signals-container" = Some c ->
  only_rows c ->
  exists c',
    document (exec (on_new_signal signal now) st) !! "signals-container" = Some c' /\
    only_rows c' /\
    rows (exec (on_new_signal signal now) st) = cons_capped 20 signal (rows st).
Proof.
  intros E Hc. exists (add_row signal c).
  destruct (add_row_only_rows signal c Hc) as [Hc' Hrows].
  destruct (rows_addSignalToUI signal now st c E) as [Hdoc Hr].
  split_and!.
  - unfold exec at 1. rewrite on_new_signal_run. cbn [snd].
    unfold exec at 1, showNotification, modify. cbn [snd document with_body]. exact Hdoc.
  - exact Hc'.
  - rewrite rows_on_new_signal, Hr, Hrows. unfold rows. rewrite E. reflexivity.
Qed.

(** ** Substrings *)





(** ** Filtering and searching the signal list *)


Lemma filter_all_forallb {A : Type} (f : A -> bool) (l : list A) :
  forallb f l = true -> List.filter f l = l.
Proof.
  induction l as [| x l IH]; simpl; [reflexivity |].
  intros H. apply andb_true_iff in H as [Hx Hl]. rewrite Hx, IH by exact Hl. reflexivity.
Qed.

Lemma filter_sublist {A : Type} (f : A -> bool) (l : list A) :
  sublist (List.filter f l) l.
Proof.
  induction l as [| x l IH]; simpl; [constructor |].
  destruct (f x); constructor; exact IH.
Qed.

Lemma map_createSignalElement (l : list SignalEvent) : map createSignalElement l = l.
Proof. apply map_id. Qed.

Lemma rows_displaySignals (l : list SignalEvent) (st : Dashboard) :
  rows (exec (displaySignals l) st) =
  match document st !! "signals-container" with
  | Some _ => l
  | None => []
  end.
Proof.
  unfold exec. rewrite displaySignals_run. cbn [snd]. unfold rows.
  cbn [document with_document]. rewrite lookup_alter_eq, map_createSignalElement.
  destruct (document st !! "signals-container"); [apply children_with_children | reflexivity].
Qed.

Lemma alter_idempotent (f : Element -> Element) (id : string) (m : gmap string Element) :
  (forall e, f (f e) = f e) -> alter f id (alter f id m) = alter f id m.
Proof.
  intros Hf. rewrite alter_alter_eq. apply alter_ext. intros e _. apply Hf.
Qed.

Lemma displaySignals_idempotent (l : list SignalEvent) (st : Dashboard) :
  exec (displaySignals l) (exec (displaySignals l) st) = exec (displaySignals l) st.
Proof.
  unfold exec. rewrite !displaySignals_run. cbn [snd document with_document].
  rewrite with_document_twice, alter_idempotent by reflexivity. reflexivity.
Qed.


Lemma signals_on_new_signal (signal : SignalEvent) (now : string) (st : Dashboard) :
  signals (exec (on_new_signal signal now) st) = signals st.
Proof.
  unfold exec at 1. rewrite on_new_signal_run. cbn [snd].
  unfold exec. rewrite addSignalToUI_run. cbn [snd showNotification modify signals with_body].
  destruct (document st !! "signals-container"); reflexivity.
Qed.

Lemma filterSignals_run (a : string) (st : Dashboard) :
  filterSignals a st = displaySignals (filtered_by_asset a (signals st)) st.
Proof. reflexivity. Qed.

Lemma filtered_by_asset_only (a : string) (l : list SignalEvent) :
  a <> "all" -> Forall (fun s => asset s = a) (filtered_by_asset a l).
Proof.
  intros Ha. unfold filtered_by_asset.
  destruct (String.eqb_spec a "all") as [-> | _]; [contradiction |].
  apply List.Forall_forall. intros s Hs. apply filter_In in Hs as [_ Hs].
  apply String.eqb_eq. exact Hs.
Qed.

Lemma filtered_by_asset_sublist (a : string) (l : list SignalEvent) :
  sublist (filtered_by_asset a l) l.
Proof.
  unfold filtered_by_asset. destruct (String.eqb a "all"); [reflexivity |].
  apply filter_sublist.
Qed.

(** C8. [filterSignals("all")] shows the whole of [this.signals]; for any
    other asset [x], [filterSignals(x)] shows the signals of [this.signals]
    whose asset is [x], in their order, and none with another asset, also
    right after a signal has been recorded; it leaves [this.signals] as it
    is, and doing it twice gives the state that doing it once gives. *)
Theorem filter_is_pure_projection (st : Dashboard) (c : Element) (x : string) :
  document st !! "signals-container" = Some c ->
  let st' := exec (filterSignals x) st in
  completion (filterSignals x) st = Normal tt /\
  (x = "all" -> rows st' = signals st) /\
  (x <> "all" ->
   rows st' = List.filter (fun s => String.eqb (asset s) x) (signals st) /\
   Forall (fun s => asset s = x) (rows st')) /\
  sublist (rows st') (signals st) /\
  (forall signal now,
     x <> "all" ->
     Forall (fun s => asset s = x)
       (rows (exec (filterSignals x) (exec (on_new_signal signal now) st)))) /\
  signals st' = signals st /\
  exec (filterSignals x) st' = st'.
Proof.
  intros Hc. cbv zeta.
  assert (Hrows : rows (exec (filterSignals x) st) = filtered_by_asset x (signals st)).
  { unfold exec. rewrite filterSignals_run.
    fold (exec (displaySignals (filtered_by_asset x (signals st))) st).
    rewrite rows_displaySignals, Hc. reflexivity. }
  assert (Hsig : signals (exec (filterSignals x) st) = signals st).
  { unfold exec. rewrite filterSignals_run, displaySignals_run. reflexivity. }
  split_and!.
  - unfold completion. rewrite filterSignals_run, displaySignals_run. reflexivity.
  - intros ->. rewrite Hrows. reflexivity.
  - intros Hx. rewrite Hrows. split.
    + unfold filtered_by_asset. destruct (String.eqb_spec x "all"); [contradiction | reflexivity].
    + apply filtered_by_asset_only. exact Hx.
  - rewrite Hrows. apply filtered_by_asset_sublist.
  - intros signal now Hx.
    destruct (container_kept_by_new_signal signal now st) as [c' Hc']; [eexists; exact Hc |].
    unfold exec at 1. rewrite filterSignals_run.
    match goal with
    | |- context [snd (displaySignals ?l ?s)] => fold (exec (displaySignals l) s)
    end.
    rewrite rows_displaySignals, Hc'. apply filtered_by_asset_only. exact Hx.
  - exact Hsig.
  - unfold exec at 1. rewrite filterSignals_run, Hsig.
    unfold exec at 2. rewrite filterSignals_run.
    apply displaySignals_idempotent.
Qed.

(** ** The connection status *)

Lemma render_connection_idempotent (stats : ConnectionStats) (page : gmap string Element) :
  render_connection stats (render_connection stats page) = render_connection stats page.
Proof.
  unfold render_connection. apply map_eq; intros j.
  destruct (decide (j = "last-activity")) as [-> | H1];
    [| destruct (decide (j = "message-count")) as [-> | H2];
       [| destruct (decide (j = "authentication-status")) as [-> | H3];
          [| destruct (decide (j = "connection-status")) as [-> | H4]]]];
    repeat (rewrite lookup_alter_eq || rewrite lookup_alter_ne by congruence);
    destruct (page !! _); reflexivity.
Qed.

Lemma on_connection_update_run (stats : ConnectionStats) (st : Dashboard) :
  on_connection_update stats st =
  (Normal tt,
   with_document (render_connection stats (document st)) (with_connectionStats stats st)).
Proof.
  unfold on_connection_update, modify. rewrite bind_run. cbv beta iota.
  rewrite updateConnectionStatus_run. reflexivity.
Qed.

(** C9. Applying the same connection statistics twice leaves the dashboard
    exactly as applying them once: nothing is accumulated, the shown message
    count is the one of the statistics, and what the page shows about the
    connection is the same after the first and after the second time. *)
Theorem connection_update_idempotent (stats : ConnectionStats) (st : Dashboard) :
  let once := exec (on_connection_update stats) st in
  let twice := exec (on_connection_update stats) once in
  completion (on_connection_update stats) st = Normal tt /\
  connectionStats once = stats /\
  twice = once /\
  connection_view twice = connection_view once /\
  text_of "message-count" once =
    (fun _ => Num (or_zero (message_count stats))) <$> document st !! "message-count".
Proof.
  cbv zeta.
  assert (Htwice : exec (on_connection_update stats) (exec (on_connection_update stats) st) =
                   exec (on_connection_update stats) st).
  { unfold exec. rewrite !on_connection_update_run.
    cbn [snd document with_document with_connectionStats].
    rewrite render_connection_idempotent. reflexivity. }
  split_and!.
  - unfold completion. rewrite on_connection_update_run. reflexivity.
  - unfold exec. rewrite on_connection_update_run. reflexivity.
  - exact Htwice.
  - rewrite Htwice. reflexivity.
  - unfold exec, text_of. rewrite on_connection_update_run.
    cbn [snd document with_document]. unfold render_connection.
    rewrite lookup_alter_ne by discriminate. rewrite lookup_alter_eq.
    rewrite !lookup_alter_ne by discriminate.
    destruct (document st !! "message-count"); reflexivity.
Qed.

(** ** The performance figures *)

(** [toFixed] rounds to the nearest multiple of [10^-f], upwards on a
    tie: for a finite [x] of magnitude [num / den] below [10^21] the digits
    shown are those of the integer [n] with
    [n - 1/2 <= |x| * 10^f < n + 1/2]. *)
Lemma toFixed_rounds (f : nat) (x : float) (s : bool) (m : positive) (e : Z) :
  Prim2SF x = S754_finite s m e ->
  let num := if 0 <=? e then Z.pos m * 2 ^ e else Z.pos m in
  let den := if 0 <=? e then 1 else 2 ^ (- e) in
  num < 10 ^ 21 * den ->
  exists n : Z,
    toFixed f x = Str ((if s then "-" else "") +:+ fixed_digits f n) /\
    2 * den * n <= 2 * num * 10 ^ Z.of_nat f + den < 2 * den * (n + 1).
Proof.
  intros Hx. cbv zeta. unfold toFixed. rewrite Hx. cbv zeta.
  set (num := if 0 <=? e then Z.pos m * 2 ^ e else Z.pos m).
  set (den := if 0 <=? e then 1 else 2 ^ (- e)).
  intros Hsmall.
  destruct (Z.leb_spec (10 ^ 21 * den) num) as [Hge | _]; [lia |].
  assert (Hden : 0 < den).
  { unfold den. destruct (Z.leb_spec 0 e); [lia |]. apply Z.pow_pos_nonneg; lia. }
  exists ((2 * num * 10 ^ Z.of_nat f + den) / (2 * den)). split; [reflexivity |].
  split.
  - apply Z.mul_div_le. lia.
  - rewrite Z.mul_add_distr_l, Z.mul_1_r.
    pose proof (Z.mod_pos_bound (2 * num * 10 ^ Z.of_nat f + den) (2 * den)) as Hmod.
    pose proof (Z.div_mod (2 * num * 10 ^ Z.of_nat f + den) (2 * den)) as Hdiv.
    lia.
Qed.

Lemma digits_decode (n : Z) :
  exists d,
    digits n = NilEmpty.string_of_uint d /\ d <> Decimal.Nil /\
    N.of_uint d = Z.to_N n.
Proof.
  exists (N.to_uint (Z.to_N n)). unfold digits. split_and!.
  - destruct (Z.to_N n) as [| q]; [reflexivity |].
    pose proof (DecimalPos.Unsigned.to_uint_nonnil q) as Hq.
    cbn [N.to_uint]. destruct (Pos.to_uint q); [contradiction | reflexivity ..].
  - destruct (Z.to_N n) as [| q]; [discriminate |].
    apply DecimalPos.Unsigned.to_uint_nonnil.
  - apply DecimalN.Unsigned.of_to.
Qed.

Lemma substring_all (s : string) : String.substring 0 (String.length s) s = s.
Proof. induction s as [| c s IH]; simpl; [reflexivity | rewrite IH; reflexivity]. Qed.

Lemma substring_none (s : string) (k : nat) : String.substring k 0 s = EmptyString.
Proof. revert k. induction s as [| c s IH]; intros [| k]; simpl; auto. Qed.

Lemma substring_split (s : string) (k : nat) :
  (k <= String.length s)%nat ->
  String.substring 0 k s +:+ String.substring k (String.length s - k) s = s.
Proof.
  revert k. induction s as [| c s IH]; intros k Hk.
  - destruct k; [reflexivity | simpl in Hk; lia].
  - destruct k as [| k].
    + rewrite Nat.sub_0_r, substring_all. reflexivity.
    + simpl in Hk. cbn [String.length String.substring Nat.sub String.append].
      change (String c (String.substring 0 k s
                        +:+ String.substring k (String.length s - k) s) = String c s).
      rewrite IH by lia. reflexivity.
Qed.

Lemma substring_length (s : string) (k j : nat) :
  (k + j <= String.length s)%nat -> String.length (String.substring k j s) = j.
Proof.
  revert k j. induction s as [| c s IH]; intros k j Hk.
  - simpl in Hk. destruct k, j; try lia; reflexivity.
  - destruct k as [| k].
    + destruct j as [| j]; [reflexivity |]. simpl in *. f_equal. apply IH. lia.
    + simpl in *. apply IH. lia.
Qed.

Lemma fixed_digits_decode (n : Z) :
  exists a b u,
    fixed_digits 1 n = a +:+ "." +:+ b /\
    String.length b = 1%nat /\
    a <> EmptyString /\
    NilEmpty.uint_of_string (a +:+ b) = Some u /\
    N.of_uint u = Z.to_N n.
Proof.
  destruct (digits_decode n) as (d & Hd & Hnil & Hof).
  assert (Hparse : NilEmpty.uint_of_string (digits n) = Some d)
    by (rewrite Hd; apply NilEmpty.usu).
  unfold fixed_digits. cbv zeta.
  destruct (digits n) as [| c [| c' m]] eqn:Hm.
  - destruct d; [contradiction | discriminate Hd ..].
  - exists "0", (String c EmptyString), (Decimal.D0 d). split_and!.
    + reflexivity.
    + reflexivity.
    + discriminate.
    + change (uint_of_char "0" (NilEmpty.uint_of_string (String c EmptyString)) =
              Some (Decimal.D0 d)).
      rewrite Hparse. reflexivity.
    + exact Hof.
  - set (m' := String c (String c' m)) in *.
    assert (Hlen : (2 <= String.length m')%nat) by (unfold m'; simpl; lia).
    replace (2 - String.length m')%nat with 0%nat by lia.
    change (zeros 0 +:+ m') with m'.
    exists (String.substring 0 (String.length m' - 1) m'),
           (String.substring (String.length m' - 1) 1 m'), d.
    assert (Hsplit : String.substring 0 (String.length m' - 1) m'
                     +:+ String.substring (String.length m' - 1) 1 m' = m').
    { pose proof (substring_split m' (String.length m' - 1)) as Hs.
      replace (String.length m' - (String.length m' - 1))%nat with 1%nat in Hs by lia.
      apply Hs. lia. }
    split_and!.
    + reflexivity.
    + apply substring_length. lia.
    + intros Ha. apply (f_equal String.length) in Ha.
      rewrite substring_length in Ha by lia. simpl in Ha. lia.
    + rewrite Hsplit. exact Hparse.
    + exact Hof.
Qed.

Lemma string_app_assoc (a b c : string) : (a +:+ b) +:+ c = a +:+ (b +:+ c).
Proof.
  induction a as [| x a IH]; [reflexivity |].
  change (String x ((a +:+ b) +:+ c) = String x (a +:+ (b +:+ c))). f_equal. exact IH.
Qed.

(** C6. The win rate shown is [((winning_signals / total_signals) * 100)]
    rendered by [toFixed(1)] and followed by ["%"] when
    [total_signals > 0], and ["0%"] otherwise, in particular when
    [total_signals] is [0]. Rendered by [toFixed(1)] means: for a finite rate
    below [10^21] the text is a string of decimal digits with a point before
    the last one, and the integer those digits spell is the rate times 10
    rounded to the nearest integer (upwards on a tie); 6 wins out of 10 show
    ["60.0%"], 1 out of 200 ["0.5%"], 1 out of 3 ["33.3%"]. The text is computed
    from the current [performanceData] whenever the figures are rendered that
    far (when the total profit cannot be rendered the win rate keeps its old
    text), and rendering leaves [performanceData], which has no such field,
    as it is. *)
Theorem win_rate_rendering (st : Dashboard) :
  let p := performanceData st in
  let st' := exec updatePerformanceStats st in
  let rate := (winning_signals p / total_signals p * 100)%float in
  let shown :=
    if PrimFloat.ltb 0 (total_signals p)
    then tcat (toFixed 1 rate) (Str "%")
    else Str "0%" in
  text_of "win-rate" st' =
    (if profit_renders p st
     then (fun _ => shown) <$> document st !! "win-rate"
     else text_of "win-rate" st) /\
  performanceData st' = p /\
  (total_signals p = 0%float -> shown = Str "0%") /\
  (forall m e,
     PrimFloat.ltb 0 (total_signals p) = true ->
     Prim2SF rate = S754_finite false m e ->
     (if 0 <=? e then Z.pos m * 2 ^ e else Z.pos m) <
       10 ^ 21 * (if 0 <=? e then 1 else 2 ^ (- e)) ->
     exists (n : Z) (a b : string) (u : Decimal.uint),
       shown = Str (a +:+ "." +:+ b +:+ "%") /\
       String.length b = 1%nat /\
       a <> EmptyString /\
       NilEmpty.uint_of_string (a +:+ b) = Some u /\
       Z.of_N (N.of_uint u) = n /\
       2 * (if 0 <=? e then 1 else 2 ^ (- e)) * n <=
         2 * (if 0 <=? e then Z.pos m * 2 ^ e else Z.pos m) * 10
         + (if 0 <=? e then 1 else 2 ^ (- e)) <
       2 * (if 0 <=? e then 1 else 2 ^ (- e)) * (n + 1)) /\
  (forall w t s,
     In (w, t, s)
       [(6, 10, "60.0%"); (1, 200, "0.5%"); (0, 5, "0.0%"); (1, 3, "33.3%");
        (2, 3, "66.7%"); (7, 7, "100.0%"); (1, 8, "12.5%")]%float ->
     winning_signals p = w -> total_signals p = t -> shown = Str s).
Proof.
  cbv zeta. split_and!.
  - unfold exec, text_of. rewrite updatePerformanceStats_run. cbv zeta. unfold profit_renders.
    destruct (document st !! "total-profit") as [el |];
      [destruct (total_profit (performanceData st)) as [v |] |];
      cbn [snd document with_document]; unfold render_rates, render_counts.
    + rewrite lookup_alter_eq. rewrite !lookup_alter_ne by discriminate. unfold winRate.
      destruct (document st !! "win-rate"),
               (PrimFloat.ltb 0 (total_signals (performanceData st))); reflexivity.
    + rewrite !lookup_alter_ne by discriminate. reflexivity.
    + rewrite lookup_alter_eq. rewrite !lookup_alter_ne by discriminate. unfold winRate.
      destruct (document st !! "win-rate"),
               (PrimFloat.ltb 0 (total_signals (performanceData st))); reflexivity.
  - unfold exec. rewrite updatePerformanceStats_run. cbv zeta.
    destruct (document st !! "total-profit");
      [destruct (total_profit (performanceData st)) |]; reflexivity.
  - intros ->. reflexivity.
  - intros m e Hpos Hsf Hsmall. rewrite Hpos.
    destruct (toFixed_rounds 1 _ false m e Hsf Hsmall) as (n & Hfix & Hn).
    change (10 ^ Z.of_nat 1) with 10 in Hn.
    destruct (fixed_digits_decode n) as (a & b & u & Hab & Hb & Ha & Hu & Hof).
    exists n, a, b, u. rewrite Hfix.
    change (EmptyString +:+ fixed_digits 1 n) with (fixed_digits 1 n).
    cbn [tcat]. rewrite Hab, !string_app_assoc.
    assert (Hden : 0 < (if 0 <=? e then 1 else 2 ^ (- e))).
    { destruct (Z.leb_spec 0 e); [lia |]. apply Z.pow_pos_nonneg; lia. }
    assert (Hnum : 0 <= (if 0 <=? e then Z.pos m * 2 ^ e else Z.pos m)).
    { destruct (Z.leb_spec 0 e); [| lia].
      apply Z.mul_nonneg_nonneg; [lia | apply Z.pow_nonneg; lia]. }
    assert (Hnn : 0 <= n).
    { destruct (Z.le_gt_cases 0 n) as [Hle | Hneg]; [exact Hle | exfalso].
      assert (Hprod : 2 * (if 0 <=? e then 1 else 2 ^ (- e)) * (n + 1) <= 0)
        by (apply Z.mul_nonneg_nonpos; lia).
      lia. }
    split; [reflexivity |]. split; [exact Hb |]. split; [exact Ha |].
    split; [exact Hu |]. split; [| exact Hn].
    rewrite Hof. apply Z2N.id. exact Hnn.
  - intros w t s Hin Hw Ht. rewrite Hw, Ht.
    repeat (destruct Hin as [Heq | Hin];
            [injection Heq as <- <- <-; vm_compute; reflexivity |]).
    destruct Hin.
Qed.

(** ** Pulling the snapshots *)

Lemma showNotification_error (st : Dashboard) :
  showNotification "Error loading data" "error" st =
  (Normal tt, with_body (body st ++ [error_badge]) st).
Proof. reflexivity. Qed.

Lemma displaySignals_frame (l : list SignalEvent) (st : Dashboard) :
  exec (displaySignals l) st = with_document (document (exec (displaySignals l) st)) st.
Proof. unfold exec. rewrite displaySignals_run. reflexivity. Qed.

Lemma updatePerformanceStats_frame (st : Dashboard) :
  exec updatePerformanceStats st =
  with_document (document (exec updatePerformanceStats st)) st.
Proof.
  unfold exec. rewrite updatePerformanceStats_run. cbv zeta.
  destruct (document st !! "total-profit");
    [destruct (total_profit (performanceData st)) |]; reflexivity.
Qed.

Lemma updatePerformanceStats_completion (st : Dashboard) :
  completion updatePerformanceStats st =
  if profit_renders (performanceData st) st then Normal tt else Throw TypeError.
Proof.
  unfold completion, profit_renders. rewrite updatePerformanceStats_run. cbv zeta.
  destruct (document st !! "total-profit");
    [destruct (total_profit (performanceData st)) |]; reflexivity.
Qed.

Lemma profit_renders_page (p : PerformanceData) (st st' : Dashboard) :
  document st' !! "total-profit" = document st !! "total-profit" ->
  profit_renders p st' = profit_renders p st.
Proof. unfold profit_renders. intros ->. reflexivity. Qed.

(** The dashboard a pull leaves, step by step. *)
Lemma loadInitialData_run
    (rs : option (list SignalEvent)) (rp : option PerformanceData)
    (rc : option ConnectionStats) (now : string) (st : Dashboard) :
  loadInitialData rs rp rc now st =
  (Normal tt,
   match rs with
   | None => with_body (body st ++ [error_badge]) st
   | Some l =>
       let st1 := exec (displaySignals l) (with_signals l st) in
       match rp with
       | None => with_body (body st1 ++ [error_badge]) st1
       | Some p =>
           let st2 := exec updatePerformanceStats (with_performanceData p st1) in
           if profit_renders p st then
             match rc with
             | None => with_body (body st2 ++ [error_badge]) st2
             | Some c =>
                 exec (updateCharts now)
                   (exec updateConnectionStatus (with_connectionStats c st2))
             end
           else with_body (body st2 ++ [error_badge]) st2
       end
   end).
Proof.
  unfold loadInitialData, try_catch, await_json, throw, modify, gets, exec.
  destruct rs as [l |]; [| reflexivity].
  mrun. cbn [signals with_signals]. rewrite !displaySignals_run. mrun. cbn [snd].
  set (st1 := with_document _ (with_signals l st)).
  destruct rp as [p |]; [| reflexivity].
  mrun.
  assert (Hpage : profit_renders p st = profit_renders p (with_performanceData p st1)).
  { symmetry. apply profit_renders_page. unfold st1.
    cbn [document with_performanceData with_document].
    apply lookup_alter_ne. discriminate. }
  pose proof (updatePerformanceStats_completion (with_performanceData p st1)) as Hc.
  cbn [performanceData with_performanceData] in Hc. rewrite <- Hpage in Hc.
  unfold completion in Hc.
  destruct (updatePerformanceStats (with_performanceData p st1)) as [r st2].
  cbn [fst snd] in *. subst r.
  destruct (profit_renders p st); [| reflexivity].
  destruct rc as [c |]; [| reflexivity].
  mrun. rewrite !updateConnectionStatus_run. mrun. cbn [snd].
  rewrite updateCharts_run. reflexivity.
Qed.

Lemma displaySignals_page (l : list SignalEvent) (st : Dashboard) :
  exists d, exec (displaySignals l) st = with_document d st.
Proof. eexists. apply displaySignals_frame. Qed.

Lemma updatePerformanceStats_page (st : Dashboard) :
  exists d, exec updatePerformanceStats st = with_document d st.
Proof. eexists. apply updatePerformanceStats_frame. Qed.

Lemma updateConnectionStatus_page (st : Dashboard) :
  exists d, exec updateConnectionStatus st = with_document d st.
Proof. eexists. unfold exec. rewrite updateConnectionStatus_run. reflexivity. Qed.

(** Replace what the rendering methods leave by "the same object with some
    other page", and project. *)
Ltac frames :=
  repeat match goal with
    | |- context [exec updatePerformanceStats ?s] =>
        let d := fresh "d" in destruct (updatePerformanceStats_page s) as [d ->]
    | |- context [exec (displaySignals ?l) ?s] =>
        let d := fresh "d" in destruct (displaySignals_page l s) as [d ->]
    | |- context [exec updateConnectionStatus ?s] =>
        let d := fresh "d" in destruct (updateConnectionStatus_page s) as [d ->]
    end;
  cbn [document with_document signals connectionStats performanceData
       performanceChart distributionChart body with_signals
       with_connectionStats with_performanceData with_performanceChart
       with_distributionChart with_body].

(** C2, as the code has it. When a request of a pull fails, no exception
    escapes and exactly one badge, of severity error, is raised; the
    connection statistics and both charts are as before; the snapshots whose
    requests succeeded before the failure have replaced the held ones (the
    signals, and after them the performance data), the others are as before;
    and when the signals request itself fails nothing but the badge changes. *)
Theorem failed_pull_effects
    (rs : option (list SignalEvent)) (rp : option PerformanceData)
    (rc : option ConnectionStats) (now : string) (st : Dashboard) :
  rs = None \/ rp = None \/ rc = None ->
  let st' := exec (loadInitialData rs rp rc now) st in
  completion (loadInitialData rs rp rc now) st = Normal tt /\
  body st' = body st ++ [error_badge] /\
  is_error error_badge = true /\
  connectionStats st' = connectionStats st /\
  performanceChart st' = performanceChart st /\
  distributionChart st' = distributionChart st /\
  signals st' = match rs with Some l => l | None => signals st end /\
  performanceData st' =
    match rs, rp with
    | Some _, Some p => p
    | _, _ => performanceData st
    end /\
  (rs = None -> st' = with_body (body st ++ [error_badge]) st).
Proof.
  intros Hfail. cbv zeta. unfold completion, exec at 1 2 3 4 5 6 7.
  rewrite loadInitialData_run. cbn [fst snd].
  split; [reflexivity |].
  destruct rs as [l |]; [destruct rp as [p |]; [destruct (profit_renders p st);
    [destruct rc as [c |]; [exfalso; destruct Hfail as [H | [H | H]]; discriminate H |] |] |] |];
    cbv zeta; frames; split_and!; try reflexivity; intros H; discriminate H.
Qed.

(** ** Performance updates *)

Lemma on_performance_update_run (d : PerformanceData) (now : string) (st : Dashboard) :
  on_performance_update d now st =
  let st1 := exec updatePerformanceStats (with_performanceData d st) in
  if profit_renders d st
  then (Normal tt, exec (updateCharts now) st1)
  else (Throw TypeError, st1).
Proof.
  unfold on_performance_update, modify, exec. mrun.
  pose proof (updatePerformanceStats_completion (with_performanceData d st)) as Hc.
  cbn [performanceData with_performanceData] in Hc.
  rewrite (profit_renders_page d st (with_performanceData d st)) in Hc by reflexivity.
  unfold completion in Hc.
  destruct (updatePerformanceStats (with_performanceData d st)) as [r st1].
  cbn [fst snd] in *. subst r.
  destruct (profit_renders d st); [| reflexivity].
  rewrite updateCharts_run. reflexivity.
Qed.

(** A [performance_update] without [total_profit], on a page that shows the
    total profit, ends with an uncaught [TypeError]: no badge is raised and
    the series gets no point. *)
Lemma performance_update_without_profit_throws
    (st : Dashboard) (d : PerformanceData) (now : string) (e : Element) :
  total_profit d = None ->
  document st !! "total-profit" = Some e ->
  completion (on_performance_update d now) st = Throw TypeError /\
  body (exec (on_performance_update d now) st) = body st /\
  performanceChart (exec (on_performance_update d now) st) = performanceChart st.
Proof.
  intros Hd He. unfold completion.
  assert (Hrun : on_performance_update d now st =
                 (Throw TypeError, exec updatePerformanceStats (with_performanceData d st))).
  { rewrite on_performance_update_run. unfold profit_renders. rewrite He, Hd. reflexivity. }
  unfold exec at 1 2. rewrite Hrun. cbn [fst snd].
  frames. split_and!; reflexivity.
Qed.


(** ** Points of the performance series *)

(** C10, as the code has it. The series of the performance chart gets one
    point [(now, total_profit)] for each [performance_update] that renders
    and for each pull whose three requests succeed and whose performance
    snapshot renders, and none for any other event; a pull whose connection
    request fails has replaced [performanceData] and appended no point. *)
Theorem metric_point_per_rendered_update (st : Dashboard) :
  (forall e,
     performanceChart (exec (dispatch e) st) =
     match appended_point e st with
     | Some (label, value) => push_point label value <$> performanceChart st
     | None => performanceChart st
     end) /\
  (forall l p now,
     performanceData (exec (dispatch (Pull (Some l) (Some p) None now)) st) = p /\
     performanceChart (exec (dispatch (Pull (Some l) (Some p) None now)) st) =
     performanceChart st).
Proof.
  split.
  - intros [stats | d now | signal now | | | rs rp rc now | a | query | now];
      cbn [dispatch appended_point].
    + unfold exec. rewrite on_connection_update_run. reflexivity.
    + unfold exec at 1. rewrite on_performance_update_run. cbv zeta.
      destruct (profit_renders d st); cbn [snd].
      * unfold exec at 1. rewrite updateCharts_run. cbn [snd]. frames.
        destruct (performanceChart st); reflexivity.
      * frames. reflexivity.
    + unfold exec at 1. rewrite on_new_signal_run. cbn [snd].
      unfold exec. rewrite addSignalToUI_run. cbn [snd showNotification modify].
      destruct (document st !! "signals-container"); reflexivity.
    + reflexivity.
    + unfold on_disconnect. frames. reflexivity.
    + unfold exec at 1. rewrite loadInitialData_run. cbn [snd].
      destruct rs as [l |], rp as [p |], rc as [c |]; cbv zeta;
        try destruct (profit_renders p st); try (frames; reflexivity).
      unfold exec at 1. rewrite updateCharts_run. cbn [snd]. frames.
      destruct (performanceChart st); reflexivity.
    + unfold exec. rewrite filterSignals_run, displaySignals_run. reflexivity.
    + unfold exec, searchSignals, gets. mrun. rewrite displaySignals_run. reflexivity.
    + unfold exec, updateLastUpdateTime. rewrite setText_run. reflexivity.
  - intros l p now. cbn [dispatch]. unfold exec. rewrite loadInitialData_run.
    cbn [snd]. cbv zeta. destruct (profit_renders p st); frames; split; reflexivity.
Qed.

(** ** The distribution counts *)

Lemma count_directions (l : list SignalEvent) :
  (countDirection "CALL" l + countDirection "PUT" l + countDirection "HOLD" l)%nat =
  length (List.filter known_direction l).
Proof.
  unfold countDirection, known_direction.
  induction l as [| s l IH]; [reflexivity |].
  cbn [List.filter]. generalize (direction s) as d. intros d.
  destruct (String.eqb_spec d "CALL") as [-> | _];
    [| destruct (String.eqb_spec d "PUT") as [-> | _];
       [| destruct (String.eqb_spec d "HOLD") as [-> | _]]];
    cbn [String.eqb Ascii.eqb Bool.eqb andb orb length]; lia.
Qed.

Lemma distribution_repeat_call (s : SignalEvent) (n : nat) :
  direction s = "CALL" -> distribution (repeat s n) = [n; 0; 0]%nat.
Proof.
  intros Hs. unfold distribution, countDirection.
  induction n as [| n IH]; [reflexivity |].
  cbn [repeat List.filter]. rewrite Hs.
  cbn [String.eqb Ascii.eqb Bool.eqb andb length].
  injection IH as -> -> ->. reflexivity.
Qed.

Lemma startup_signals (page : gmap string Element) : signals (startup page) = [].
Proof.
  unfold startup, exec, initializeCharts, getElementById, gets, modify. mrun.
  cbn [document constructor].
  destruct (page !! "performance-chart"); mrun;
    cbn [document with_performanceChart constructor];
    destruct (page !! "distribution-chart"); reflexivity.
Qed.

Lemma distributionChart_on_new_signal (signal : SignalEvent) (now : string) (st : Dashboard) :
  distributionChart (exec (on_new_signal signal now) st) = distributionChart st.
Proof.
  unfold exec at 1. rewrite on_new_signal_run. cbn [snd].
  unfold exec. rewrite addSignalToUI_run. cbn [snd showNotification modify].
  destruct (document st !! "signals-container"); reflexivity.
Qed.

Lemma signals_after_new_signals (l : list (SignalEvent * string)) (st : Dashboard) :
  signals (run (new_signals l) st) = signals st.
Proof.
  revert st. induction l as [| [s now] l IH]; intros st; [reflexivity |].
  cbn [new_signals map run fold_left fst snd dispatch].
  change (fold_left (fun s0 e => exec (dispatch e) s0) (map (fun e => NewSignal (fst e) (snd e)) l))
    with (run (new_signals l)).
  rewrite IH. apply signals_on_new_signal.
Qed.

(** C1, as the code has it. A [new_signal] event puts the signal in the
    visible rows only: [this.signals], the list the distribution counts are
    taken over, and the distribution chart are as before; so after any number
    of [new_signal] events from startup the counts computed over
    [this.signals] are 0, 0, 0. [updateCharts] takes the counts over the
    whole of [this.signals], whatever its length; the three counts add up to
    the number of signals whose direction is CALL, PUT or HOLD, which is the
    length of the list when every direction is one of these. *)
Theorem new_signal_leaves_backing_list :
  (forall st signal now,
     signals (exec (on_new_signal signal now) st) = signals st /\
     distributionChart (exec (on_new_signal signal now) st) = distributionChart st) /\
  (forall page l,
     signals (run (new_signals l) (startup page)) = [] /\
     distribution (signals (run (new_signals l) (startup page))) = [0; 0; 0]%nat) /\
  (forall st now,
     distributionChart (exec (updateCharts now) st) =
     (fun _ => distribution (signals st)) <$> distributionChart st) /\
  (forall l,
     (countDirection "CALL" l + countDirection "PUT" l + countDirection "HOLD" l)%nat =
     length (List.filter known_direction l)) /\
  (forall l,
     forallb known_direction l = true ->
     (countDirection "CALL" l + countDirection "PUT" l + countDirection "HOLD" l)%nat =
     length l) /\
  (forall s n, direction s = "CALL" -> distribution (repeat s n) = [n; 0; 0]%nat).
Proof.
  split_and!; [| | | | | apply distribution_repeat_call].
  - intros st signal now. split;
      [apply signals_on_new_signal | apply distributionChart_on_new_signal].
  - intros page l. rewrite signals_after_new_signals, startup_signals.
    split; reflexivity.
  - intros st now. unfold exec. rewrite updateCharts_run. cbn [snd].
    destruct (distributionChart st); reflexivity.
  - apply count_directions.
  - intros l Hall. rewrite count_directions. f_equal. apply filter_all_forallb. exact Hall.
Qed.

(** * Further properties of the dashboard *)

(** ** Elements of the page *)

Lemma searchSignals_run (query : string) (st : Dashboard) :
  searchSignals query st = displaySignals (List.filter (search_match query) (signals st)) st.
Proof. reflexivity. Qed.

Lemma dom_render_connection (stats : ConnectionStats) (page : gmap string Element) :
  dom (render_connection stats page) = dom page.
Proof. unfold render_connection. rewrite !dom_alter_L. reflexivity. Qed.

Lemma dom_updateConnectionStatus (st : Dashboard) :
  dom (document (exec updateConnectionStatus st)) = dom (document st).
Proof.
  unfold exec. rewrite updateConnectionStatus_run. cbn [snd document with_document].
  apply dom_render_connection.
Qed.

Lemma dom_updatePerformanceStats (st : Dashboard) :
  dom (document (exec updatePerformanceStats st)) = dom (document st).
Proof.
  unfold exec. rewrite updatePerformanceStats_run. cbv zeta.
  destruct (document st !! "total-profit");
    [destruct (total_profit (performanceData st)) |];
    cbn [snd document with_document]; unfold render_rates, render_counts;
    rewrite !dom_alter_L; reflexivity.
Qed.

Lemma dom_displaySignals (l : list SignalEvent) (st : Dashboard) :
  dom (document (exec (displaySignals l) st)) = dom (document st).
Proof.
  unfold exec. rewrite displaySignals_run. cbn [snd document with_document].
  apply dom_alter_L.
Qed.

Lemma dom_updateCharts (now : string) (st : Dashboard) :
  document (exec (updateCharts now) st) = document st.
Proof. unfold exec. rewrite updateCharts_run. reflexivity. Qed.

Lemma dom_dispatch (e : Event) (st : Dashboard) :
  dom (document (exec (dispatch e) st)) = dom (document st).
Proof.
  destruct e as [stats | d now | signal now | | | rs rp rc now | a | query | now];
    cbn [dispatch].
  - unfold exec. rewrite on_connection_update_run. cbn [snd document with_document].
    apply dom_render_connection.
  - unfold exec at 1. rewrite on_performance_update_run. cbv zeta.
    destruct (profit_renders d st); cbn [snd];
      rewrite ?dom_updateCharts, dom_updatePerformanceStats; reflexivity.
  - unfold exec at 1. rewrite on_new_signal_run. cbn [snd].
    unfold exec. rewrite addSignalToUI_run. cbn [snd showNotification modify document with_body].
    destruct (document st !! "signals-container"); [| reflexivity].
    cbn [document with_document]. rewrite !dom_alter_L. reflexivity.
  - reflexivity.
  - apply dom_updateConnectionStatus.
  - unfold exec at 1. rewrite loadInitialData_run. cbn [snd].
    destruct rs as [l |]; [| reflexivity].
    destruct rp as [p |]; cbv zeta;
      [| cbn [document with_body]; rewrite dom_displaySignals; reflexivity].
    destruct (profit_renders p st); [destruct rc as [c |] |];
      rewrite ?dom_updateCharts, ?dom_updateConnectionStatus;
      cbn [document with_body with_connectionStats];
      rewrite dom_updatePerformanceStats; cbn [document with_performanceData];
      rewrite dom_displaySignals; reflexivity.
  - unfold exec. rewrite filterSignals_run. apply dom_displaySignals.
  - unfold exec. rewrite searchSignals_run. apply dom_displaySignals.
  - unfold exec, updateLastUpdateTime. rewrite setText_run. cbn [snd document with_document].
    apply dom_alter_L.
Qed.

Lemma dom_run (es : list Event) (st : Dashboard) :
  dom (document (run es st)) = dom (document st).
Proof.
  revert st. induction es as [| e es IH]; intros st; [reflexivity |].
  cbn [run fold_left]. fold (run es (exec (dispatch e) st)).
  rewrite IH. apply dom_dispatch.
Qed.

Lemma startup_document (page : gmap string Element) : document (startup page) = page.
Proof.
  unfold startup, exec, initializeCharts, getElementById, gets, modify. mrun.
  cbn [document constructor].
  destruct (page !! "performance-chart"); mrun;
    cbn [document with_performanceChart constructor];
    destruct (page !! "distribution-chart"); reflexivity.
Qed.

(** X2. A dashboard is constructed exactly on the pages that have the
    signal list, and then the list is there in every state the events lead
    to: [addSignalToUI] and [displaySignals] never take their early return. *)
Theorem booted_dashboard_keeps_signal_list (page : gmap string Element) :
  (boot page = None <-> page !! "signals-container" = None) /\
  (forall st es,
     boot page = Some st ->
     is_Some (document (run es st) !! "signals-container")).
Proof.
  unfold boot. split.
  - destruct (page !! "signals-container"); split; intros H; discriminate H || reflexivity.
  - intros st es Hboot.
    destruct (page !! "signals-container") as [c |] eqn:Hc; [| discriminate Hboot].
    injection Hboot as <-.
    rewrite <- elem_of_dom, dom_run, elem_of_dom, startup_document, Hc.
    eexists; reflexivity.
Qed.

(** ** What each event does to the dashboard object *)

(** X4. [this.signals] is written by a pull whose signals request succeeded
    and by nothing else; [this.performanceData] by a [performance_update]
    (also one that then fails to render) and by a pull whose signals and
    performance requests succeeded; [this.connectionStats] by a
    [connection_update] and by a pull that got as far as its third response. *)
Theorem snapshots_are_written_only_by_their_updates (e : Event) (st : Dashboard) :
  signals (exec (dispatch e) st) =
    match e with
    | Pull (Some l) _ _ _ => l
    | _ => signals st
    end /\
  performanceData (exec (dispatch e) st) =
    match e with
    | PerformanceUpdate d _ => d
    | Pull (Some _) (Some p) _ _ => p
    | _ => performanceData st
    end /\
  connectionStats (exec (dispatch e) st) =
    match e with
    | ConnectionUpdate stats => stats
    | Pull (Some _) (Some p) (Some c) _ =>
        if profit_renders p st then c else connectionStats st
    | _ => connectionStats st
    end.
Proof.
  destruct e as [stats | d now | signal now | | | rs rp rc now | a | query | now];
    cbn [dispatch].
  - unfold exec. rewrite on_connection_update_run. split_and!; reflexivity.
  - unfold exec at 1 2 3. rewrite on_performance_update_run. cbv zeta.
    destruct (profit_renders d st); cbn [snd].
    + rewrite !exec_updateCharts. frames. split_and!; reflexivity.
    + frames. split_and!; reflexivity.
  - unfold exec at 1 2 3. rewrite on_new_signal_run. cbn [snd].
    unfold exec. rewrite addSignalToUI_run. cbn [snd showNotification modify].
    destruct (document st !! "signals-container"); split_and!; reflexivity.
  - split_and!; reflexivity.
  - unfold on_disconnect. frames. split_and!; reflexivity.
  - unfold exec at 1 2 3. rewrite loadInitialData_run. cbn [snd].
    destruct rs as [l |], rp as [p |], rc as [c |]; cbv zeta;
      try destruct (profit_renders p st); try (frames; split_and!; reflexivity).
    rewrite !exec_updateCharts. frames. split_and!; reflexivity.
  - unfold exec. rewrite filterSignals_run, displaySignals_run. split_and!; reflexivity.
  - unfold exec. rewrite searchSignals_run, displaySignals_run. split_and!; reflexivity.
  - unfold exec, updateLastUpdateTime. rewrite setText_run. split_and!; reflexivity.
Qed.

(** ** More on the signal list *)

Lemma rows_updatePerformanceStats (st : Dashboard) :
  rows (exec updatePerformanceStats st) = rows st.
Proof.
  unfold rows, exec. rewrite updatePerformanceStats_run. cbv zeta.
  destruct (document st !! "total-profit");
    [destruct (total_profit (performanceData st)) |];
    cbn [snd document with_document]; unfold render_rates, render_counts;
    rewrite !lookup_alter_ne by discriminate; reflexivity.
Qed.

Lemma rows_updateConnectionStatus (st : Dashboard) :
  rows (exec updateConnectionStatus st) = rows st.
Proof.
  unfold rows, exec. rewrite updateConnectionStatus_run.
  cbn [snd document with_document]. unfold render_connection.
  rewrite !lookup_alter_ne by discriminate. reflexivity.
Qed.

Lemma cons_capped_max {A : Type} (cap : nat) (x : A) (l : list A) :
  cons_capped cap x l = firstn (Nat.max cap (length l)) (x :: l).
Proof.
  unfold cons_capped.
  destruct (Nat.ltb_spec cap (length (x :: l))) as [Hgt | Hle]; simpl length in *.
  - rewrite removelast_firstn_len. simpl length. f_equal. simpl. lia.
  - symmetry. apply firstn_all2. simpl length. lia.
Qed.

Lemma rows_after_new_signals_any
    (l : list (SignalEvent * string)) (st : Dashboard) (c : Element) :
  document st !! "signals-container" = Some c ->
  only_rows c ->
  rows (run (new_signals l) st) =
  firstn (Nat.max 20 (length (rows st))) (rev (map fst l) ++ rows st).
Proof.
  revert st c. induction l as [| [s now] l IH]; intros st c Hc Hrows.
  - simpl. symmetry. apply firstn_all2. lia.
  - cbn [new_signals map run fold_left fst snd dispatch].
    change (fold_left (fun s0 e => exec (dispatch e) s0) (map (fun e => NewSignal (fst e) (snd e)) l))
      with (run (new_signals l)).
    destruct (tidy_on_new_signal s now st c Hc Hrows) as (c' & Hc' & Hrows' & Hr).
    rewrite cons_capped_max in Hr.
    rewrite (IH _ c' Hc' Hrows').
    assert (Hmax : Nat.max 20 (length (rows (exec (on_new_signal s now) st))) =
                   Nat.max 20 (length (rows st))).
    { rewrite Hr, length_firstn. simpl length. lia. }
    rewrite Hmax, Hr, firstn_app_firstn. cbn [rev]. rewrite <- app_assoc. reflexivity.
Qed.

(** X7. On a signal list whose child nodes are all rows (as [displaySignals]
    leaves it), new signals keep the list at 20 rows and never shorten a list
    that already shows more (as after a pull of more than 20 signals): with
    [n] rows shown, the rows after the signals [l] have been pushed are the
    first [max 20 n] of the pushed signals, newest first, followed by the
    rows that were there. *)
Theorem long_list_keeps_its_length
    (l : list (SignalEvent * string)) (st : Dashboard) (c : Element) :
  document st !! "signals-container" = Some c ->
  only_rows c ->
  let n := length (rows st) in
  rows (run (new_signals l) st) = firstn (Nat.max 20 n) (rev (map fst l) ++ rows st) /\
  length (rows (run (new_signals l) st)) = Nat.min (length l + n) (Nat.max 20 n) /\
  ((20 <= n)%nat -> length (rows (run (new_signals l) st)) = n).
Proof.
  intros Hc Hrows. cbv zeta.
  assert (Hr : rows (run (new_signals l) st) =
               firstn (Nat.max 20 (length (rows st))) (rev (map fst l) ++ rows st))
    by (apply (rows_after_new_signals_any l st c Hc Hrows)).
  assert (Hlen : length (rows (run (new_signals l) st)) =
                 Nat.min (length l + length (rows st)) (Nat.max 20 (length (rows st)))).
  { rewrite Hr, length_firstn, length_app, length_rev, length_map. lia. }
  split_and!; [exact Hr | exact Hlen | intros Hn; rewrite Hlen; lia].
Qed.

Lemma run_app (es1 es2 : list Event) (st : Dashboard) :
  run (es1 ++ es2) st = run es2 (run es1 st).
Proof. unfold run. apply fold_left_app. Qed.

Lemma rows_of_app (l1 l2 : list Node) : rows_of (l1 ++ l2) = rows_of l1 ++ rows_of l2.
Proof.
  induction l1 as [| [r |] l1 IH]; cbn [rows_of app]; rewrite ?IH; reflexivity.
Qed.

(** [addSignalToUI] on a signal list whose last child is a node that is not
    a row: the rows are counted, and that node is the one removed. *)
Lemma add_row_stray (signal : SignalEvent) (c : Element) (r : list SignalEvent) :
  childNodes c = map RowNode r ++ [OtherNode] ->
  childNodes (add_row signal c) =
  if (20 <=? length r)%nat
  then map RowNode (signal :: r)
  else map RowNode (signal :: r) ++ [OtherNode].
Proof.
  intros Hc. unfold add_row, createSignalElement. cbv zeta.
  cbn [childNodes with_childNodes]. rewrite Hc.
  change (RowNode signal :: map RowNode r ++ [OtherNode])
    with (map RowNode (signal :: r) ++ [OtherNode]).
  rewrite rows_of_app, rows_of_map_RowNode. cbn [rows_of]. rewrite app_nil_r.
  change (20 <? length (signal :: r))%nat with (20 <=? length r)%nat.
  destruct (20 <=? length r)%nat; [apply removelast_last | reflexivity].
Qed.

Lemma container_on_new_signal
    (signal : SignalEvent) (now : string) (st : Dashboard) (c : Element) :
  document st !! "signals-container" = Some c ->
  document (exec (on_new_signal signal now) st) !! "signals-container" =
    Some (add_row signal c).
Proof.
  intros E. destruct (rows_addSignalToUI signal now st c E) as [Hdoc _].
  unfold exec at 1. rewrite on_new_signal_run. cbn [snd].
  unfold exec at 1, showNotification, modify. cbn [snd document with_body]. exact Hdoc.
Qed.

(** Up to 20 rows, the node that is not a row stays the last child. *)
Lemma stray_node_stays (l : list (SignalEvent * string)) :
  forall (st : Dashboard) (c : Element) (r : list SignalEvent),
    document st !! "signals-container" = Some c ->
    childNodes c = map RowNode r ++ [OtherNode] ->
    (length l + length r <= 20)%nat ->
    exists c',
      document (run (new_signals l) st) !! "signals-container" = Some c' /\
      childNodes c' = map RowNode (rev (map fst l) ++ r) ++ [OtherNode].
Proof.
  induction l as [| [s now] l IH]; intros st c r Hc Hn Hlen.
  - exists c. split; [exact Hc | exact Hn].
  - cbn [length] in Hlen.
    change (run (new_signals ((s, now) :: l)) st)
      with (run (new_signals l) (exec (on_new_signal s now) st)).
    destruct (IH (exec (on_new_signal s now) st) (add_row s c) (s :: r)) as (c' & Hc' & Hn').
    + apply container_on_new_signal, Hc.
    + rewrite (add_row_stray s c r Hn).
      destruct (Nat.leb_spec 20 (length r)) as [Hge | Hlt]; [lia | reflexivity].
    + cbn [length]. lia.
    + exists c'. split; [exact Hc' |].
      rewrite Hn'. cbn [map fst rev]. rewrite <- app_assoc. reflexivity.
Qed.

(** C4. The cap of 20 rows fails on a signal list that holds a node that is
    not a row. [addSignalToUI] counts [children], the rows, and removes
    [lastChild], whatever node that is: where the signal list shows no row
    and holds one other node (the white-space text node of an indented
    template, which stays until a pull succeeds), the 21st signal removes
    that node, and from then on the list shows the 21 most recent signals,
    newest first, however many arrive. *)
Theorem stray_node_defeats_the_cap
    (l : list (SignalEvent * string)) (st : Dashboard) (c : Element) :
  document st !! "signals-container" = Some c ->
  childNodes c = [OtherNode] ->
  (21 <= length l)%nat ->
  rows st = [] /\
  rows (run (new_signals l) st) = firstn 21 (rev (map fst l)) /\
  length (rows (run (new_signals l) st)) = 21%nat.
Proof.
  intros Hc Hn Hl.
  assert (Hempty : rows st = []) by (unfold rows, children; rewrite Hc, Hn; reflexivity).
  assert (Hsplit : l = firstn 20 l ++ skipn 20 l) by (symmetry; apply firstn_skipn).
  assert (Hfirst : length (firstn 20 l) = 20%nat) by (rewrite length_firstn; lia).
  destruct (skipn 20 l) as [| [s now] rest] eqn:Hrest.
  { apply (f_equal (@length _)) in Hsplit. rewrite length_app, Hfirst in Hsplit.
    cbn [length] in Hsplit. lia. }
  set (l20 := firstn 20 l) in *.
  destruct (stray_node_stays l20 st c [] Hc Hn) as (c20 & Hc20 & Hn20);
    [cbn [length]; lia |].
  rewrite app_nil_r in Hn20.
  set (st20 := run (new_signals l20) st) in *.
  assert (Hc21 : document (exec (on_new_signal s now) st20) !! "signals-container" =
                 Some (add_row s c20)) by (apply container_on_new_signal, Hc20).
  assert (Hn21 : childNodes (add_row s c20) = map RowNode (s :: rev (map fst l20))).
  { rewrite (add_row_stray s c20 _ Hn20), length_rev, length_map, Hfirst. reflexivity. }
  assert (Honly : only_rows (add_row s c20)).
  { unfold only_rows, children. rewrite Hn21, rows_of_map_RowNode. reflexivity. }
  assert (Hr21 : rows (exec (on_new_signal s now) st20) = s :: rev (map fst l20)).
  { unfold rows, children. rewrite Hc21, Hn21. apply rows_of_map_RowNode. }
  assert (Hr : rows (run (new_signals l) st) = firstn 21 (rev (map fst l))).
  { rewrite Hsplit at 1. unfold new_signals. rewrite map_app.
    fold (new_signals l20). fold (new_signals ((s, now) :: rest)). rewrite run_app.
    change (run (new_signals ((s, now) :: rest)) (run (new_signals l20) st))
      with (run (new_signals rest) (exec (on_new_signal s now) st20)).
    rewrite (rows_after_new_signals_any _ _ _ Hc21 Honly), Hr21.
    cbn [length]. rewrite length_rev, length_map, Hfirst.
    change (Nat.max 20 21) with 21%nat.
    rewrite Hsplit. rewrite map_app, rev_app_distr. cbn [map fst rev].
    rewrite <- app_assoc. reflexivity. }
  split_and!; [exact Hempty | exact Hr |].
  rewrite Hr, length_firstn, length_rev, length_map. lia.
Qed.

(** X8. On a page without the signal list nothing is displayed and nothing
    else is touched: [displaySignals], [filterSignals], [searchSignals] and
    [addSignalToUI] leave the dashboard as it is (the last-update time is not
    stamped either), and a [new_signal] event only raises its badge. *)
Theorem without_signal_list_nothing_is_displayed (st : Dashboard) :
  document st !! "signals-container" = None ->
  (forall l, exec (displaySignals l) st = st) /\
  (forall a, exec (filterSignals a) st = st) /\
  (forall query, exec (searchSignals query) st = st) /\
  (forall signal now, exec (addSignalToUI signal now) st = st) /\
  (forall signal now,
     exec (on_new_signal signal now) st = with_body (body st ++ [signal_badge signal]) st).
Proof.
  intros Hnone.
  assert (Hd : forall l, exec (displaySignals l) st = st).
  { intros l. unfold exec, displaySignals, getElementById, gets. mrun.
    rewrite Hnone. reflexivity. }
  assert (Ha : forall signal now, exec (addSignalToUI signal now) st = st).
  { intros signal now. unfold exec. rewrite addSignalToUI_run, Hnone. reflexivity. }
  split_and!.
  - exact Hd.
  - intros a. unfold exec. rewrite filterSignals_run. apply Hd.
  - intros query. unfold exec. rewrite searchSignals_run. apply Hd.
  - exact Ha.
  - intros signal now. unfold exec at 1. rewrite on_new_signal_run. cbn [snd].
    rewrite Ha. reflexivity.
Qed.

(** ** More on searching and filtering *)

Lemma displaySignals_twice (l1 l2 : list SignalEvent) (st : Dashboard) :
  exec (displaySignals l2) (exec (displaySignals l1) st) = exec (displaySignals l2) st.
Proof.
  unfold exec. rewrite !displaySignals_run. cbn [snd document with_document].
  rewrite with_document_twice, alter_alter_eq. reflexivity.
Qed.

Lemma signals_displaySignals (l : list SignalEvent) (st : Dashboard) :
  signals (exec (displaySignals l) st) = signals st.
Proof. unfold exec. rewrite displaySignals_run. reflexivity. Qed.

Lemma exec_searchSignals (query : string) (st : Dashboard) :
  exec (searchSignals query) st =
  exec (displaySignals (List.filter (search_match query) (signals st))) st.
Proof. reflexivity. Qed.

Lemma exec_filterSignals (a : string) (st : Dashboard) :
  exec (filterSignals a) st = exec (displaySignals (filtered_by_asset a (signals st))) st.
Proof. reflexivity. Qed.

(** X10. Filter and search do not combine: each displays its own selection
    of the whole of [this.signals], so searching after filtering leaves the
    dashboard exactly as searching alone, and filtering after searching as
    filtering alone. *)
Theorem last_display_wins (a query : string) (st : Dashboard) :
  exec (searchSignals query) (exec (filterSignals a) st) = exec (searchSignals query) st /\
  exec (filterSignals a) (exec (searchSignals query) st) = exec (filterSignals a) st.
Proof.
  rewrite !exec_searchSignals, !exec_filterSignals, !signals_displaySignals.
  split; apply displaySignals_twice.
Qed.

(** X11. Displaying again forgets what was pushed: after any number of
    [new_signal] events, a filter or a search shows its selection of the
    [this.signals] the events found, and none of the pushed signals as such. *)
Theorem redisplay_forgets_pushed_signals
    (l : list (SignalEvent * string)) (st : Dashboard) (c : Element) :
  document st !! "signals-container" = Some c ->
  (forall a,
     rows (exec (filterSignals a) (run (new_signals l) st)) =
     filtered_by_asset a (signals st)) /\
  (forall query,
     rows (exec (searchSignals query) (run (new_signals l) st)) =
     List.filter (search_match query) (signals st)) /\
  rows (exec (filterSignals "all") (run (new_signals l) st)) = signals st.
Proof.
  intros Hc.
  assert (Hkept : is_Some (document (run (new_signals l) st) !! "signals-container")).
  { rewrite <- elem_of_dom, dom_run, elem_of_dom. eexists; exact Hc. }
  destruct Hkept as [c' Hc'].
  assert (Hf : forall a,
             rows (exec (filterSignals a) (run (new_signals l) st)) =
             filtered_by_asset a (signals st)).
  { intros a. unfold exec. rewrite filterSignals_run.
    match goal with
    | |- context [snd (displaySignals ?x ?s)] => fold (exec (displaySignals x) s)
    end.
    rewrite rows_displaySignals, Hc', signals_after_new_signals. reflexivity. }
  split_and!.
  - exact Hf.
  - intros query. unfold exec. rewrite searchSignals_run.
    match goal with
    | |- context [snd (displaySignals ?x ?s)] => fold (exec (displaySignals x) s)
    end.
    rewrite rows_displaySignals, Hc', signals_after_new_signals. reflexivity.
  - rewrite Hf. reflexivity.
Qed.

(** ** The charts in every reachable state *)

Lemma signals_dispatch (e : Event) (st : Dashboard) :
  signals (exec (dispatch e) st) =
  match e with
  | Pull (Some l) _ _ _ => l
  | _ => signals st
  end.
Proof.
  destruct e as [stats | d now | signal now | | | rs rp rc now | a | query | now];
    cbn [dispatch].
  - unfold exec. rewrite on_connection_update_run. reflexivity.
  - unfold exec at 1. rewrite on_performance_update_run. cbv zeta.
    destruct (profit_renders d st); cbn [snd]; rewrite ?exec_updateCharts; frames; reflexivity.
  - apply signals_on_new_signal.
  - reflexivity.
  - unfold on_disconnect. frames. reflexivity.
  - unfold exec at 1. rewrite loadInitialData_run. cbn [snd].
    destruct rs as [l |], rp as [p |], rc as [c |]; cbv zeta;
      try destruct (profit_renders p st); rewrite ?exec_updateCharts; frames; reflexivity.
  - unfold exec. rewrite filterSignals_run, displaySignals_run. reflexivity.
  - unfold exec. rewrite searchSignals_run, displaySignals_run. reflexivity.
  - unfold exec, updateLastUpdateTime. rewrite setText_run. reflexivity.
Qed.

Lemma charts_dispatch (e : Event) (st : Dashboard) :
  (performanceChart (exec (dispatch e) st) = performanceChart st /\
   distributionChart (exec (dispatch e) st) = distributionChart st /\
   appended_point e st = None) \/
  (exists label value,
     appended_point e st = Some (label, value) /\
     performanceChart (exec (dispatch e) st) =
       push_point label value <$> performanceChart st /\
     distributionChart (exec (dispatch e) st) =
       (fun _ => distribution (signals (exec (dispatch e) st))) <$> distributionChart st).
Proof.
  rewrite signals_dispatch.
  destruct e as [stats | d now | signal now | | | rs rp rc now | a | query | now];
    cbn [dispatch appended_point].
  - left. unfold exec. rewrite on_connection_update_run. split_and!; reflexivity.
  - unfold exec. rewrite on_performance_update_run. cbv zeta.
    destruct (profit_renders d st); cbn [snd].
    + right. exists now, (total_profit d). rewrite !exec_updateCharts. frames.
      split_and!; [reflexivity | |];
        destruct (performanceChart st), (distributionChart st); reflexivity.
    + left. frames. split_and!; reflexivity.
  - left. unfold exec at 1 2. rewrite on_new_signal_run. cbn [snd].
    unfold exec. rewrite addSignalToUI_run. cbn [snd showNotification modify].
    destruct (document st !! "signals-container"); split_and!; reflexivity.
  - left. split_and!; reflexivity.
  - left. unfold on_disconnect. frames. split_and!; reflexivity.
  - unfold exec at 1 2 3 4. rewrite loadInitialData_run. cbn [snd].
    destruct rs as [l |], rp as [p |], rc as [c |]; cbv zeta;
      try destruct (profit_renders p st);
      try (left; frames; split_and!; reflexivity).
    right. exists now, (total_profit p). rewrite !exec_updateCharts. frames.
    split_and!; [reflexivity | |];
      destruct (performanceChart st), (distributionChart st); reflexivity.
  - left. unfold exec. rewrite filterSignals_run, displaySignals_run. split_and!; reflexivity.
  - left. unfold exec. rewrite searchSignals_run, displaySignals_run. split_and!; reflexivity.
  - left. unfold exec, updateLastUpdateTime. rewrite setText_run. split_and!; reflexivity.
Qed.

Lemma redraws_appended_point (e : Event) (st : Dashboard) :
  redraws e st = match appended_point e st with Some _ => true | None => false end.
Proof.
  destruct e as [stats | d now | signal now | | | rs rp rc now | a | query | now];
    cbn [redraws appended_point]; try reflexivity.
  - destruct (profit_renders d st); reflexivity.
  - destruct rs, rp, rc; try reflexivity. destruct (profit_renders _ st); reflexivity.
Qed.

(** X12. The distribution chart is redrawn by the events that get to call
    [updateCharts], a [performance_update] that renders and a pull whose
    three requests succeed and whose snapshot renders, with the counts of the
    signals then held, whether or not the dashboard has a performance chart;
    after any other event (a pull that replaced [this.signals] and then
    failed included) it holds the counts it held before. *)
Theorem distribution_is_redrawn_by_chart_updates (e : Event) (st : Dashboard) :
  distributionChart (exec (dispatch e) st) =
  (if redraws e st
   then (fun _ => distribution (signals (exec (dispatch e) st))) <$> distributionChart st
   else distributionChart st) /\
  (performanceChart st = None -> performanceChart (exec (dispatch e) st) = None).
Proof.
  rewrite redraws_appended_point.
  destruct (charts_dispatch e st) as [(Hp & Hd & ->) | (label & value & -> & Hp & Hd)].
  - split; [exact Hd | intros Hnone; rewrite Hp; exact Hnone].
  - split; [exact Hd | intros Hnone; rewrite Hp, Hnone; reflexivity].
Qed.

Lemma push_point_ok (label : string) (value : option float) (c : PerfChart) :
  series_ok (Some c) -> series_ok (Some (push_point label value c)).
Proof.
  intros [Heq Hle]. rewrite push_point_snoc by exact Heq. cbn [series_ok labels data].
  unfold snoc_capped. rewrite !length_app, <- Heq. simpl length.
  destruct (Nat.ltb_spec 20 (length (labels c) + 1)) as [Hgt | Hok];
    rewrite ?length_tl, ?length_app; simpl length; lia.
Qed.

Lemma charts_ok_dispatch (e : Event) (st : Dashboard) :
  series_ok (performanceChart st) ->
  series_ok (performanceChart (exec (dispatch e) st)) /\
  (is_Some (performanceChart (exec (dispatch e) st)) <-> is_Some (performanceChart st)) /\
  (is_Some (distributionChart (exec (dispatch e) st)) <-> is_Some (distributionChart st)) /\
  ((forall d, distributionChart st = Some d -> length d = 3%nat) ->
   forall d, distributionChart (exec (dispatch e) st) = Some d -> length d = 3%nat).
Proof.
  intros Hok.
  destruct (charts_dispatch e st) as [(-> & -> & _) | (label & value & _ & -> & ->)].
  - split_and!; [exact Hok | reflexivity | reflexivity | intros H; exact H].
  - split_and!.
    + destruct (performanceChart st) as [c |]; [| exact I].
      apply push_point_ok. exact Hok.
    + rewrite fmap_is_Some. reflexivity.
    + rewrite fmap_is_Some. reflexivity.
    + intros _ d Hd. destruct (distributionChart st); [| discriminate Hd].
      injection Hd as <-. reflexivity.
Qed.

(** X13. In every state the events lead to from startup, the page has its
    charts exactly when it has their canvases, the series has as many labels
    as values and at most 20 of them, and the distribution chart has its
    three counts. *)
Theorem charts_stay_well_formed (page : gmap string Element) (es : list Event) :
  let st := run es (startup page) in
  (is_Some (performanceChart st) <-> is_Some (page !! "performance-chart")) /\
  (is_Some (distributionChart st) <-> is_Some (page !! "distribution-chart")) /\
  (forall c, performanceChart st = Some c ->
     length (labels c) = length (data c) /\ (length (snapshot c) <= 20)%nat) /\
  (forall d, distributionChart st = Some d -> length d = 3%nat).
Proof.
  cbv zeta.
  assert (Hinv : forall es st,
            series_ok (performanceChart st) ->
            (forall d, distributionChart st = Some d -> length d = 3%nat) ->
            series_ok (performanceChart (run es st)) /\
            (is_Some (performanceChart (run es st)) <-> is_Some (performanceChart st)) /\
            (is_Some (distributionChart (run es st)) <-> is_Some (distributionChart st)) /\
            (forall d, distributionChart (run es st) = Some d -> length d = 3%nat)).
  { clear es. intros es. induction es as [| e es IH]; intros st Hok H3.
    - split_and!; [exact Hok | reflexivity | reflexivity | exact H3].
    - cbn [run fold_left]. fold (run es (exec (dispatch e) st)).
      destruct (charts_ok_dispatch e st Hok) as (Hok' & Hp & Hd & H3').
      destruct (IH _ Hok' (H3' H3)) as (Hok'' & Hp' & Hd' & H3'').
      split_and!; [exact Hok'' | rewrite Hp', Hp; reflexivity
                  | rewrite Hd', Hd; reflexivity | exact H3'']. }
  assert (Hstart : performanceChart (startup page) =
                     (fun _ => empty_chart) <$> page !! "performance-chart" /\
                   distributionChart (startup page) =
                     (fun _ => [0; 0; 0]%nat) <$> page !! "distribution-chart").
  { unfold startup, exec, initializeCharts, getElementById, gets, modify. mrun.
    cbn [document constructor].
    destruct (page !! "performance-chart"); mrun;
      cbn [document with_performanceChart constructor];
      destruct (page !! "distribution-chart"); split; reflexivity. }
  destruct Hstart as [Hp0 Hd0].
  destruct (Hinv es (startup page)) as (Hok & Hp & Hd & H3).
  { rewrite Hp0. destruct (page !! "performance-chart"); simpl; [split; [reflexivity | lia] | exact I]. }
  { intros d. rewrite Hd0. destruct (page !! "distribution-chart"); [| discriminate].
    intros H. injection H as <-. reflexivity. }
  split_and!.
  - rewrite Hp, Hp0, fmap_is_Some. reflexivity.
  - rewrite Hd, Hd0, fmap_is_Some. reflexivity.
  - intros c Hc. rewrite Hc in Hok. destruct Hok as [Heq Hle]. split; [exact Heq |].
    unfold snapshot. rewrite length_combine. lia.
  - exact H3.
Qed.

Lemma profit_renders_dispatch (p : PerformanceData) (e : Event) (st : Dashboard) :
  profit_renders p (exec (dispatch e) st) = profit_renders p st.
Proof.
  unfold profit_renders.
  assert (H : is_Some (document (exec (dispatch e) st) !! "total-profit") <->
              is_Some (document st !! "total-profit"))
    by (rewrite <- !elem_of_dom, dom_dispatch; reflexivity).
  destruct (document (exec (dispatch e) st) !! "total-profit") as [x |],
           (document st !! "total-profit") as [y |]; try reflexivity.
  - destruct H as [H _]. destruct H as [z Hz]; [eexists; reflexivity | discriminate Hz].
  - destruct H as [_ H]. destruct H as [z Hz]; [eexists; reflexivity | discriminate Hz].
Qed.

(** X14. A run of [performance_update] events that all render pushes their
    points [(now, total_profit)] on the series in order; from the empty
    series of startup, the series then holds the last 20 of them. *)
Theorem series_after_performance_updates
    (us : list (PerformanceData * string)) (st : Dashboard) (c0 : PerfChart) :
  performanceChart st = Some c0 ->
  Forall (fun u => profit_renders (fst u) st = true) us ->
  let pts := map (fun u => (snd u, total_profit (fst u))) us in
  performanceChart (run (performance_updates us) st) = Some (push_all pts c0) /\
  (c0 = empty_chart ->
   snapshot <$> performanceChart (run (performance_updates us) st) = Some (lastn 20 pts)).
Proof.
  intros Hc Hall. cbv zeta.
  assert (H : performanceChart (run (performance_updates us) st) =
              Some (push_all (map (fun u => (snd u, total_profit (fst u))) us) c0)).
  { revert st c0 Hc Hall. induction us as [| [d now] us IH]; intros st c0 Hc Hall.
    - exact Hc.
    - apply List.Forall_cons_iff in Hall as [Hd Hall]. cbn [fst] in Hd.
      cbn [performance_updates map run fold_left fst snd push_all].
      change (fold_left (fun s e => exec (dispatch e) s)
                (map (fun u => PerformanceUpdate (fst u) (snd u)) us))
        with (run (performance_updates us)).
      change (fold_left (fun c p => push_point (fst p) (snd p) c)
                (map (fun u => (snd u, total_profit (fst u))) us))
        with (push_all (map (fun u => (snd u, total_profit (fst u))) us)).
      apply IH.
      + destruct (charts_dispatch (PerformanceUpdate d now) st)
          as [(_ & _ & Hnone) | (label & value & Hsome & Hp & _)];
          cbn [appended_point] in *; rewrite Hd in *; [discriminate Hnone |].
        injection Hsome as <- <-. rewrite Hp, Hc. reflexivity.
      + eapply List.Forall_impl; [| exact Hall]. intros u Hu. cbn beta in *.
        rewrite profit_renders_dispatch. exact Hu. }
  split; [exact H |].
  intros ->. rewrite H. cbn [fmap option_fmap option_map]. f_equal.
  unfold snapshot.
  destruct (push_all_lastn (map (fun u => (snd u, total_profit (fst u))) us)) as [-> ->].
  rewrite !lastn_map. apply combine_fst_snd.
Qed.

(** ** More on the connection status *)

(** Look an element up through the [alter]s of a rendering. *)
Ltac alter_lookups :=
  repeat first [rewrite lookup_alter_eq | rewrite lookup_alter_ne by discriminate].

(** X15. The [disconnect] event of the socket does not mark the dashboard
    disconnected: it only renders the held statistics again. The statistics
    are as before, the status shown is the one they give, and right after a
    [connection_update] a [disconnect] changes nothing at all. *)
Theorem disconnect_shows_the_held_status (st : Dashboard) :
  connectionStats (exec (dispatch Disconnect) st) = connectionStats st /\
  text_of "connection-status" (exec (dispatch Disconnect) st) =
    (fun _ => Str (if websocket_connected (connectionStats st)
                   then "✅ Connected" else "❌ Disconnected"))
    <$> document st !! "connection-status" /\
  (forall stats,
     exec (dispatch Disconnect) (exec (dispatch (ConnectionUpdate stats)) st) =
     exec (dispatch (ConnectionUpdate stats)) st).
Proof.
  cbn [dispatch]. unfold on_disconnect. split_and!.
  - unfold exec. rewrite updateConnectionStatus_run. reflexivity.
  - unfold exec, text_of. rewrite updateConnectionStatus_run.
    cbn [snd document with_document]. unfold render_connection.
    alter_lookups.
    destruct (document st !! "connection-status"); reflexivity.
  - intros stats. unfold exec. rewrite on_connection_update_run. cbn [snd].
    rewrite updateConnectionStatus_run.
    cbn [snd document with_document connectionStats with_connectionStats].
    rewrite render_connection_idempotent. reflexivity.
Qed.

Lemma or_zero_not_nan (x : option float) : PrimFloat.is_nan (or_zero x) = false.
Proof.
  unfold or_zero, JsNumber.truthy. destruct x as [v |]; [| reflexivity].
  destruct (PrimFloat.eqb v 0); [reflexivity |].
  destruct (PrimFloat.is_nan v) eqn:Hnan; [reflexivity | exact Hnan].
Qed.

(** X16. Absent fields of a [connection_update]: the message count shown is
    the number of the payload, or 0 when the field is absent, zero or NaN, so
    it is never NaN; the last activity shows the message of the payload, or
    ["Never"] when the field is absent or empty. *)
Theorem absent_connection_fields_have_defaults
    (stats : ConnectionStats) (st : Dashboard) (e1 e2 : Element) :
  document st !! "message-count" = Some e1 ->
  document st !! "last-activity" = Some e2 ->
  let st' := exec (on_connection_update stats) st in
  (message_count stats = None -> text_of "message-count" st' = Some (Num 0)) /\
  (forall x,
     message_count stats = Some x ->
     text_of "message-count" st' =
       Some (Num (if (PrimFloat.eqb x 0 || PrimFloat.is_nan x)%bool then 0%float else x))) /\
  (exists x, text_of "message-count" st' = Some (Num x) /\ PrimFloat.is_nan x = false) /\
  (last_message stats = None \/ last_message stats = Some EmptyString ->
   text_of "last-activity" st' = Some (Str "Never")) /\
  (forall msg,
     last_message stats = Some msg -> msg <> EmptyString ->
     text_of "last-activity" st' = Some (Str msg)).
Proof.
  intros H1 H2. cbv zeta. unfold exec, text_of. rewrite on_connection_update_run.
  cbn [snd document with_document]. unfold render_connection.
  assert (Hcount : textContent <$>
            alter (with_textContent (Num (or_zero (message_count stats)))) "message-count"
              (document st) !! "message-count" = Some (Num (or_zero (message_count stats))))
    by (rewrite lookup_alter_eq, H1; reflexivity).
  split_and!.
  - intros Hnone. alter_lookups. rewrite H1, Hnone. reflexivity.
  - intros x Hx. alter_lookups. rewrite H1, Hx. cbn [fmap option_fmap option_map textContent with_textContent].
    unfold or_zero, JsNumber.truthy.
    destruct (PrimFloat.eqb x 0 || PrimFloat.is_nan x)%bool; reflexivity.
  - exists (or_zero (message_count stats)). alter_lookups. rewrite H1.
    split; [reflexivity | apply or_zero_not_nan].
  - intros [Hl | Hl]; alter_lookups; rewrite H2, Hl; reflexivity.
  - intros msg Hl Hmsg. alter_lookups. rewrite H2, Hl.
    destruct msg; [contradiction | reflexivity].
Qed.


(** ** More on the performance figures *)

(** X18. A [performance_update] without [total_profit], on a page that
    shows the total profit, leaves the figures half rendered: the three
    signal counts show the new snapshot, while the total profit, the active
    assets and the win rate still show what they showed before. *)
Theorem throwing_update_leaves_figures_half_rendered
    (st : Dashboard) (d : PerformanceData) (now : string) (e : Element) :
  total_profit d = None ->
  document st !! "total-profit" = Some e ->
  let st' := exec (on_performance_update d now) st in
  performanceData st' = d /\
  text_of "total-signals" st' = (fun _ => Num (total_signals d)) <$> document st !! "total-signals" /\
  text_of "winning-signals" st' =
    (fun _ => Num (winning_signals d)) <$> document st !! "winning-signals" /\
  text_of "losing-signals" st' =
    (fun _ => Num (losing_signals d)) <$> document st !! "losing-signals" /\
  text_of "total-profit" st' = text_of "total-profit" st /\
  text_of "active-assets" st' = text_of "active-assets" st /\
  text_of "win-rate" st' = text_of "win-rate" st.
Proof.
  intros Hd He. cbv zeta.
  assert (Hrun : exec (on_performance_update d now) st =
                 with_document (render_counts d (document st)) (with_performanceData d st)).
  { unfold exec at 1. rewrite on_performance_update_run. unfold profit_renders.
    rewrite He, Hd. cbv zeta. cbn [snd]. unfold exec.
    rewrite updatePerformanceStats_run. cbv zeta.
    cbn [document performanceData with_performanceData]. rewrite He, Hd. reflexivity. }
  rewrite Hrun. unfold text_of. cbn [document with_document performanceData with_performanceData].
  unfold render_counts.
  clear He Hrun.
  split_and!; [reflexivity | | | | | |]; alter_lookups;
    try reflexivity; destruct (document st !! _); reflexivity.
Qed.

(** X19. The total profit is shown as ["$"] followed by the number to two
    decimals, so a loss shows its sign after the dollar sign (["$-12.50"]):
    for a negative finite total profit of magnitude [m * 2^e] below [10^21],
    the text is ["$-"] followed by the digits of the magnitude rounded to the
    nearest hundredth. *)
Theorem loss_shows_the_sign_after_the_dollar
    (st : Dashboard) (el : Element) (v : float) (m : positive) (e : Z) :
  document st !! "total-profit" = Some el ->
  total_profit (performanceData st) = Some v ->
  Prim2SF v = S754_finite true m e ->
  (if 0 <=? e then Z.pos m * 2 ^ e else Z.pos m) <
    10 ^ 21 * (if 0 <=? e then 1 else 2 ^ (- e)) ->
  exists n : Z,
    text_of "total-profit" (exec updatePerformanceStats st) =
      Some (Str ("$-" +:+ fixed_digits 2 n)) /\
    2 * (if 0 <=? e then 1 else 2 ^ (- e)) * n <=
      2 * (if 0 <=? e then Z.pos m * 2 ^ e else Z.pos m) * 100
      + (if 0 <=? e then 1 else 2 ^ (- e)) <
    2 * (if 0 <=? e then 1 else 2 ^ (- e)) * (n + 1).
Proof.
  intros Hel Hv Hsf Hsmall.
  destruct (toFixed_rounds 2 v true m e Hsf Hsmall) as (n & Hfix & Hn).
  exists n. split; [| exact Hn].
  unfold exec, text_of. rewrite updatePerformanceStats_run. cbv zeta. rewrite Hel, Hv.
  cbn [snd document with_document]. unfold render_rates, render_counts.
  alter_lookups. rewrite Hel, Hfix. reflexivity.
Qed.

(** ** The last-update time *)

Lemma text_of_with_body (id : string) (b : list Notification) (st : Dashboard) :
  text_of id (with_body b st) = text_of id st.
Proof. reflexivity. Qed.

Lemma text_of_with_signals (id : string) (l : list SignalEvent) (st : Dashboard) :
  text_of id (with_signals l st) = text_of id st.
Proof. reflexivity. Qed.

Lemma text_of_with_performanceData (id : string) (p : PerformanceData) (st : Dashboard) :
  text_of id (with_performanceData p st) = text_of id st.
Proof. reflexivity. Qed.

Lemma text_of_with_connectionStats (id : string) (c : ConnectionStats) (st : Dashboard) :
  text_of id (with_connectionStats c st) = text_of id st.
Proof. reflexivity. Qed.

Lemma last_update_updateCharts (now : string) (st : Dashboard) :
  text_of "last-update" (exec (updateCharts now) st) = text_of "last-update" st.
Proof. rewrite exec_updateCharts. reflexivity. Qed.

Lemma last_update_updateConnectionStatus (st : Dashboard) :
  text_of "last-update" (exec updateConnectionStatus st) = text_of "last-update" st.
Proof.
  unfold text_of, exec. rewrite updateConnectionStatus_run.
  cbn [snd document with_document]. unfold render_connection.
  alter_lookups. reflexivity.
Qed.

Lemma last_update_updatePerformanceStats (st : Dashboard) :
  text_of "last-update" (exec updatePerformanceStats st) = text_of "last-update" st.
Proof.
  unfold text_of, exec. rewrite updatePerformanceStats_run. cbv zeta.
  destruct (document st !! "total-profit");
    [destruct (total_profit (performanceData st)) |];
    cbn [snd document with_document]; unfold render_rates, render_counts;
    alter_lookups; reflexivity.
Qed.

Lemma last_update_displaySignals (l : list SignalEvent) (st : Dashboard) :
  text_of "last-update" (exec (displaySignals l) st) = text_of "last-update" st.
Proof.
  unfold text_of, exec. rewrite displaySignals_run. cbn [snd document with_document].
  alter_lookups. reflexivity.
Qed.

Ltac last_update :=
  repeat first
    [ rewrite last_update_updateCharts
    | rewrite last_update_updateConnectionStatus
    | rewrite last_update_updatePerformanceStats
    | rewrite last_update_displaySignals
    | rewrite text_of_with_body
    | rewrite text_of_with_signals
    | rewrite text_of_with_performanceData
    | rewrite text_of_with_connectionStats ].

(** X20. The last-update time is stamped by a new signal (on a page with
    the signal list) and by the one-minute tick, and by nothing else: neither
    a pull, though it replaces everything shown, nor a connection or
    performance update changes it. *)
Theorem last_update_is_stamped_by_signals_and_ticks (e : Event) (st : Dashboard) :
  text_of "last-update" (exec (dispatch e) st) =
  match e with
  | NewSignal _ now =>
      match document st !! "signals-container" with
      | Some _ => (fun _ => Str now) <$> document st !! "last-update"
      | None => text_of "last-update" st
      end
  | ClockTick now => (fun _ => Str now) <$> document st !! "last-update"
  | _ => text_of "last-update" st
  end.
Proof.
  destruct e as [stats | d now | signal now | | | rs rp rc now | a | query | now];
    cbn [dispatch].
  - unfold on_connection_update, modify.
    change (exec (_ ≫= _) st) with (exec updateConnectionStatus (with_connectionStats stats st)).
    last_update. reflexivity.
  - unfold exec at 1. rewrite on_performance_update_run. cbv zeta.
    destruct (profit_renders d st); cbn [snd]; last_update; reflexivity.
  - unfold exec at 1. rewrite on_new_signal_run. cbn [snd].
    unfold exec, text_of. rewrite addSignalToUI_run.
    cbn [snd showNotification modify document with_body].
    destruct (document st !! "signals-container"); [| reflexivity].
    cbn [document with_document]. rewrite lookup_alter_eq.
    rewrite lookup_alter_ne by discriminate.
    destruct (document st !! "last-update"); reflexivity.
  - reflexivity.
  - unfold on_disconnect. last_update. reflexivity.
  - unfold exec at 1. rewrite loadInitialData_run. cbn [snd].
    destruct rs as [l |], rp as [p |], rc as [c |]; cbv zeta;
      try destruct (profit_renders p st); last_update; reflexivity.
  - rewrite exec_filterSignals. last_update. reflexivity.
  - rewrite exec_searchSignals. last_update. reflexivity.
  - unfold exec, text_of, updateLastUpdateTime. rewrite setText_run.
    cbn [snd document with_document]. rewrite lookup_alter_eq.
    destruct (document st !! "last-update"); reflexivity.
Qed.

End Dashboard.

(** * The properties at concrete inputs *)

(** The sample payloads are ASCII text, on which the engine's case mapping
    is the ASCII one. *)
#[local] Existing Instance ascii_engine.

(** Twenty-one CALL signals pushed after startup: the list shows 20 rows,
    [this.signals] is still empty, and the counts taken over it are 0, 0, 0
    and not 21, 0, 0, also on the chart once a performance update has
    redrawn it. *)
Lemma new_signals_not_counted :
  let pushed := new_signals (repeat (eurusd_call, "12:00") 21) in
  let st := run pushed (startup full_page) in
  length (rows st) = 20%nat /\
  signals st = [] /\
  distribution (signals st) <> [21; 0; 0]%nat /\
  distributionChart (run (pushed ++ [PerformanceUpdate six_of_ten "12:05"]) (startup full_page)) =
    Some [0; 0; 0]%nat.
Proof.
  cbv zeta. split_and!.
  - vm_compute. reflexivity.
  - vm_compute. reflexivity.
  - vm_compute. discriminate.
  - vm_compute. reflexivity.
Qed.

Lemma new_signal_leaves_backing_list_witness :
  forallb known_direction [eurusd_call; gbpusd_put] = true /\
  (countDirection "CALL" [eurusd_call; gbpusd_put]
   + countDirection "PUT" [eurusd_call; gbpusd_put]
   + countDirection "HOLD" [eurusd_call; gbpusd_put])%nat = 2%nat.
Proof.
  split; [reflexivity |].
  destruct new_signal_leaves_backing_list as (_ & _ & _ & _ & H & _).
  apply (H [eurusd_call; gbpusd_put]). reflexivity.
Defined.

(** A pull whose performance request fails after its signals request
    succeeded has already replaced [this.signals]. *)
Lemma failed_pull_replaces_signals :
  let st := startup full_page in
  let st' := exec (loadInitialData (Some [eurusd_call]) None (Some online) "12:00") st in
  signals st = [] /\
  signals st' = [eurusd_call] /\
  rows st' = [eurusd_call] /\
  signals st' <> signals st.
Proof.
  cbv zeta. split_and!.
  - vm_compute. reflexivity.
  - vm_compute. reflexivity.
  - vm_compute. reflexivity.
  - vm_compute. discriminate.
Qed.

Lemma failed_pull_effects_witness :
  let st := startup full_page in
  let st' := exec (loadInitialData (Some [eurusd_call]) None (Some online) "12:00") st in
  ((Some [eurusd_call] = None \/ @None PerformanceData = None \/ Some online = None) /\
   completion (loadInitialData (Some [eurusd_call]) None (Some online) "12:00") st = Normal tt /\
   body st' = [error_badge] /\
   connectionStats st' = connectionStats st /\
   signals st' = [eurusd_call] /\
   performanceData st' = performanceData st).
Proof.
  cbv zeta.
  assert (Hfail : Some [eurusd_call] = None \/ @None PerformanceData = None \/ Some online = None)
    by (right; left; reflexivity).
  destruct (failed_pull_effects (Some [eurusd_call]) None (Some online) "12:00"
              (startup full_page) Hfail) as (Hc & Hb & _ & Hcs & _ & _ & Hs & Hp & _).
  split_and!; [exact Hfail | exact Hc | exact Hb | exact Hcs | exact Hs | exact Hp].
Defined.



Lemma stray_node_defeats_the_cap_witness :
  let l := repeat (eurusd_call, "12:00") 30 in
  let st := exec (dispatch (Pull None None None "11:59")) (startup white_space_page) in
  document st !! "signals-container" = Some (with_childNodes [OtherNode] blank) /\
  (21 <= length l)%nat /\
  length (rows (run (new_signals l) st)) = 21%nat /\
  length (rows (run (new_signals l) (startup white_space_page))) = 21%nat /\
  length (rows (run (new_signals l) (startup full_page))) = 20%nat.
Proof.
  cbv zeta.
  set (st := exec (dispatch (Pull None None None "11:59")) (startup white_space_page)).
  assert (Hc : document st !! "signals-container" = Some (with_childNodes [OtherNode] blank))
    by (vm_compute; reflexivity).
  assert (Hl : (21 <= length (repeat (eurusd_call, "12:00") 30))%nat)
    by (vm_compute; lia).
  destruct (stray_node_defeats_the_cap (repeat (eurusd_call, "12:00") 30) st _
              Hc eq_refl Hl) as (_ & _ & Hlen).
  split_and!; [exact Hc | exact Hl | exact Hlen | vm_compute; reflexivity
              | vm_compute; reflexivity].
Defined.

Lemma win_rate_rendering_witness :
  let st := with_performanceData six_of_ten (startup full_page) in
  winning_signals six_of_ten = 6%float /\
  total_signals six_of_ten = 10%float /\
  text_of "win-rate" (exec updatePerformanceStats st) = Some (Str "60.0%").
Proof.
  cbv zeta.
  destruct (win_rate_rendering (with_performanceData six_of_ten (startup full_page)))
    as (Htext & _ & _ & _ & Hpoints).
  split_and!; [reflexivity | reflexivity |].
  rewrite Htext.
  rewrite (Hpoints 6%float 10%float "60.0%" (or_introl eq_refl) eq_refl eq_refl).
  vm_compute. reflexivity.
Defined.


Lemma filter_is_pure_projection_witness :
  let st := with_signals [eurusd_call; gbpusd_put] (startup full_page) in
  document st !! "signals-container" = Some blank /\
  "EURUSD" <> "all" /\
  rows (exec (filterSignals "EURUSD") st) = [eurusd_call] /\
  rows (exec (filterSignals "all") st) = [eurusd_call; gbpusd_put].
Proof.
  cbv zeta.
  assert (Hel : document (with_signals [eurusd_call; gbpusd_put] (startup full_page))
                  !! "signals-container" = Some blank) by (vm_compute; reflexivity).
  assert (Hne : "EURUSD" <> "all") by discriminate.
  destruct (filter_is_pure_projection _ blank "EURUSD" Hel) as (_ & _ & Hx & _).
  destruct (Hx Hne) as [Hrows _].
  destruct (filter_is_pure_projection _ blank "all" Hel) as (_ & Hall & _).
  split_and!; [exact Hel | exact Hne | exact Hrows | exact (Hall eq_refl)].
Defined.

(** Two ways a point and a performance update part company. A pull whose
    connection request fails after its performance request succeeded has
    replaced the performance snapshot, and the series has received no point
    for it. And a refresh that delivers exactly the snapshot already held
    appends a point all the same. *)
Lemma applied_update_without_point :
  let st := startup full_page in
  let failed := exec (dispatch (Pull (Some []) (Some six_of_ten) None "12:00")) st in
  let first := exec (dispatch (Pull (Some []) (Some six_of_ten) (Some online) "12:00")) st in
  let again := exec (dispatch (Pull (Some []) (Some six_of_ten) (Some online) "12:01")) first in
  (performanceData failed = six_of_ten /\
   performanceData failed <> performanceData st /\
   option_map snapshot (performanceChart st) = Some [] /\
   option_map snapshot (performanceChart failed) = Some []) /\
  (performanceData again = performanceData first /\
   option_map snapshot (performanceChart first) = Some [("12:00", Some 12.5%float)] /\
   option_map snapshot (performanceChart again) =
     Some [("12:00", Some 12.5%float); ("12:01", Some 12.5%float)]).
Proof.
  cbv zeta. split_and!.
  - vm_compute. reflexivity.
  - intros H. apply (f_equal connection_status) in H. vm_compute in H. discriminate H.
  - vm_compute. reflexivity.
  - vm_compute. reflexivity.
  - vm_compute. reflexivity.
  - vm_compute. reflexivity.
  - vm_compute. reflexivity.
Qed.

Lemma booted_dashboard_keeps_signal_list_witness :
  boot full_page = Some (startup full_page) /\
  is_Some (document (run [NewSignal eurusd_call "12:00"; FilterChange "GBPUSD"]
                       (startup full_page)) !! "signals-container").
Proof.
  assert (Hboot : boot full_page = Some (startup full_page)) by (vm_compute; reflexivity).
  split; [exact Hboot |].
  destruct (booted_dashboard_keeps_signal_list full_page) as [_ H].
  apply (H _ _ Hboot).
Defined.

Lemma long_list_keeps_its_length_witness :
  let st := exec (loadInitialData (Some (repeat eurusd_call 25)) (Some six_of_ten)
                    (Some online) "12:00") (startup full_page) in
  document st !! "signals-container" = Some (with_children (repeat eurusd_call 25) blank) /\
  only_rows (with_children (repeat eurusd_call 25) blank) /\
  (20 <= length (rows st))%nat /\
  length (rows (run (new_signals [(gbpusd_put, "12:01")]) st)) = 25%nat.
Proof.
  cbv zeta.
  set (st := exec (loadInitialData (Some (repeat eurusd_call 25)) (Some six_of_ten)
                     (Some online) "12:00") (startup full_page)).
  assert (Hel : document st !! "signals-container" =
                Some (with_children (repeat eurusd_call 25) blank))
    by (vm_compute; reflexivity).
  assert (Honly : only_rows (with_children (repeat eurusd_call 25) blank))
    by (vm_compute; reflexivity).
  assert (Hn : (20 <= length (rows st))%nat) by (vm_compute; lia).
  destruct (long_list_keeps_its_length [(gbpusd_put, "12:01")] st _ Hel Honly) as (_ & _ & H).
  split_and!; [exact Hel | exact Honly | exact Hn | rewrite (H Hn); vm_compute; reflexivity].
Defined.

Lemma without_signal_list_nothing_is_displayed_witness :
  let st := with_signals [eurusd_call] (startup (delete "signals-container" full_page)) in
  document st !! "signals-container" = None /\
  exec (filterSignals "all") st = st /\
  text_of "last-update" (exec (on_new_signal gbpusd_put "12:01") st) = Some (Str "").
Proof.
  cbv zeta.
  set (st := with_signals [eurusd_call] (startup (delete "signals-container" full_page))).
  assert (Hnone : document st !! "signals-container" = None) by (vm_compute; reflexivity).
  destruct (without_signal_list_nothing_is_displayed st Hnone) as (_ & Hf & _ & _ & Hn).
  split_and!; [exact Hnone | apply Hf | rewrite Hn; vm_compute; reflexivity].
Defined.

Lemma redisplay_forgets_pushed_signals_witness :
  document (startup full_page) !! "signals-container" = Some blank /\
  rows (run (new_signals [(eurusd_call, "12:00")]) (startup full_page)) = [eurusd_call] /\
  rows (exec (filterSignals "all")
          (run (new_signals [(eurusd_call, "12:00")]) (startup full_page))) = [].
Proof.
  assert (Hel : document (startup full_page) !! "signals-container" = Some blank)
    by (vm_compute; reflexivity).
  destruct (redisplay_forgets_pushed_signals [(eurusd_call, "12:00")] (startup full_page)
              blank Hel) as (_ & _ & H).
  split_and!; [exact Hel | vm_compute; reflexivity | rewrite H; vm_compute; reflexivity].
Defined.

Lemma series_after_performance_updates_witness :
  let us := [(six_of_ten, "12:00"); (six_of_ten, "12:01")] in
  performanceChart (startup full_page) = Some empty_chart /\
  Forall (fun u => profit_renders (fst u) (startup full_page) = true) us /\
  snapshot <$> performanceChart (run (performance_updates us) (startup full_page)) =
    Some [("12:00", Some 12.5%float); ("12:01", Some 12.5%float)].
Proof.
  cbv zeta.
  assert (Hc : performanceChart (startup full_page) = Some empty_chart)
    by (vm_compute; reflexivity).
  assert (Hall : Forall (fun u => profit_renders (fst u) (startup full_page) = true)
                   [(six_of_ten, "12:00"); (six_of_ten, "12:01")])
    by (repeat constructor).
  destruct (series_after_performance_updates _ _ _ Hc Hall) as [_ H].
  split_and!; [exact Hc | exact Hall | rewrite (H eq_refl); reflexivity].
Defined.

Lemma absent_connection_fields_have_defaults_witness :
  let stats := {| websocket_connected := true; authenticated := false;
                  last_message := None; message_count := None |} in
  let heard := {| websocket_connected := true; authenticated := true;
                  last_message := Some "tick"; message_count := Some 7%float |} in
  document (startup full_page) !! "message-count" = Some blank /\
  document (startup full_page) !! "last-activity" = Some blank /\
  text_of "message-count" (exec (on_connection_update stats) (startup full_page)) =
    Some (Num 0) /\
  text_of "last-activity" (exec (on_connection_update stats) (startup full_page)) =
    Some (Str "Never") /\
  text_of "last-activity" (exec (on_connection_update heard) (startup full_page)) =
    Some (Str "tick").
Proof.
  cbv zeta.
  assert (H1 : document (startup full_page) !! "message-count" = Some blank)
    by (vm_compute; reflexivity).
  assert (H2 : document (startup full_page) !! "last-activity" = Some blank)
    by (vm_compute; reflexivity).
  destruct (absent_connection_fields_have_defaults
              {| websocket_connected := true; authenticated := false;
                 last_message := None; message_count := None |}
              (startup full_page) blank blank H1 H2)
    as (Hzero & _ & _ & Hnever & _).
  destruct (absent_connection_fields_have_defaults
              {| websocket_connected := true; authenticated := true;
                 last_message := Some "tick"; message_count := Some 7%float |}
              (startup full_page) blank blank H1 H2)
    as (_ & _ & _ & _ & Hmsg).
  split_and!; [exact H1 | exact H2 | exact (Hzero eq_refl) | exact (Hnever (or_introl eq_refl)) |].
  apply (Hmsg "tick" eq_refl). discriminate.
Defined.


Lemma throwing_update_leaves_figures_half_rendered_witness :
  let st := exec (on_performance_update six_of_ten "12:00") (startup full_page) in
  let later := {| total_signals := 11; winning_signals := 6; losing_signals := 5;
                  total_profit := None; active_assets := Some 3%float;
                  connection_status := None |} in
  total_profit later = None /\
  document st !! "total-profit" =
    Some (with_textContent (Str "$12.50") blank) /\
  text_of "total-signals" (exec (on_performance_update later "12:01") st) = Some (Num 11) /\
  text_of "win-rate" (exec (on_performance_update later "12:01") st) = Some (Str "60.0%").
Proof.
  cbv zeta.
  set (st := exec (on_performance_update six_of_ten "12:00") (startup full_page)).
  set (later := {| total_signals := 11; winning_signals := 6; losing_signals := 5;
                   total_profit := None; active_assets := Some 3%float;
                   connection_status := None |}).
  assert (He : document st !! "total-profit" = Some (with_textContent (Str "$12.50") blank))
    by (vm_compute; reflexivity).
  destruct (throwing_update_leaves_figures_half_rendered st later "12:01" _ eq_refl He)
    as (_ & Ht & _ & _ & _ & _ & Hw).
  split_and!; [reflexivity | exact He | rewrite Ht; vm_compute; reflexivity
              | rewrite Hw; vm_compute; reflexivity].
Defined.

Lemma loss_shows_the_sign_after_the_dollar_witness :
  let loss := {| total_signals := 4; winning_signals := 1; losing_signals := 3;
                 total_profit := Some (-12.5)%float; active_assets := None;
                 connection_status := None |} in
  let st := with_performanceData loss (startup full_page) in
  document st !! "total-profit" = Some blank /\
  Prim2SF (-12.5)%float = S754_finite true 7036874417766400 (-49) /\
  text_of "total-profit" (exec updatePerformanceStats st) = Some (Str "$-12.50").
Proof.
  cbv zeta.
  set (st := with_performanceData _ (startup full_page)).
  assert (Hel : document st !! "total-profit" = Some blank) by (vm_compute; reflexivity).
  assert (Hsf : Prim2SF (-12.5)%float = S754_finite true 7036874417766400 (-49))
    by (vm_compute; reflexivity).
  assert (Hsmall : (if 0 <=? -49 then Z.pos 7036874417766400 * 2 ^ (-49)
                    else Z.pos 7036874417766400) <
                   10 ^ 21 * (if 0 <=? -49 then 1 else 2 ^ (- -49)))
    by (vm_compute; reflexivity).
  destruct (loss_shows_the_sign_after_the_dollar st blank (-12.5)%float _ _
              Hel eq_refl Hsf Hsmall) as (n & Ht & Hn).
  change (0 <=? -49) with false in Hn. cbv iota in Hn.
  change (- -49) with 49 in Hn.
  assert (Hn' : n = 1250) by lia.
  subst n. split_and!; [exact Hel | exact Hsf | rewrite Ht; vm_compute; reflexivity].
Defined.

Lemma distribution_is_redrawn_by_chart_updates_witness :
  let st := with_signals [eurusd_call; gbpusd_put]
              (startup (delete "performance-chart" full_page)) in
  performanceChart st = None /\
  redraws (PerformanceUpdate six_of_ten "12:00") st = true /\
  distributionChart st = Some [0; 0; 0]%nat /\
  distributionChart (exec (dispatch (PerformanceUpdate six_of_ten "12:00")) st) =
    Some [1; 1; 0]%nat /\
  performanceChart (exec (dispatch (PerformanceUpdate six_of_ten "12:00")) st) = None.
Proof.
  cbv zeta.
  set (st := with_signals [eurusd_call; gbpusd_put]
               (startup (delete "performance-chart" full_page))).
  assert (Hnone : performanceChart st = None) by (vm_compute; reflexivity).
  destruct (distribution_is_redrawn_by_chart_updates (PerformanceUpdate six_of_ten "12:00") st)
    as [Hd Hp].
  split_and!; [exact Hnone | vm_compute; reflexivity | vm_compute; reflexivity
              | rewrite Hd; vm_compute; reflexivity | exact (Hp Hnone)].
Defined.
